(** * Dashboard data coordinator: a shallow embedding of
      [src/hooks/useCoinDashboard.ts] and [src/services/coingecko.ts].

    Conventions of the embedding.
    - JavaScript numbers are idealised as exact rationals ([Q]) plus [NaN];
      infinities and the negative zero are not represented.
    - React state setters are applied in program order on an explicit
      state record; a functional updater sees the latest state.
    - An [async] function is cut at its single [await]: the synchronous
      prefix runs when the function is called, the continuation runs when
      the awaited promise settles.  JavaScript being run-to-completion,
      the abort flag of a signal is constant during each of the two parts.
    - [try]/[catch]/[finally] are combinators of a small state-and-exception
      monad. *)

From Stdlib Require Import String Ascii List ZArith QArith Qround Bool Lia Lqa.
From Stdlib Require Import DecimalString.
Import ListNotations.

Local Open Scope string_scope.
Local Open Scope list_scope.

(** ** JavaScript values used by the hook *)

Module Js.

(** A finite number or NaN. *)
Inductive Number : Type :=
| NaN
| Fin (q : Q).

(** [x > 0] *)
Definition gt0 (x : Number) : bool :=
  match x with
  | NaN => false
  | Fin q => negb (Qle_bool q 0)
  end.

(** [x <= 0] *)
Definition le0 (x : Number) : bool :=
  match x with
  | NaN => false
  | Fin q => Qle_bool q 0
  end.

(** Truthiness of a number: everything but 0 and NaN. *)
Definition truthy (x : Number) : bool :=
  match x with
  | NaN => false
  | Fin q => negb (Qeq_bool q 0)
  end.

(** [a || b] on numbers. *)
Definition or (a b : Number) : Number := if truthy a then a else b.

(** [Math.round] on a finite number: the nearest integer, halves up. *)
Definition Math_round (q : Q) : Z := Qfloor (q + (1 # 2))%Q.

(** [Math.max], [Math.min] on finite numbers. *)
Definition Math_max (a b : Q) : Q := if Qle_bool a b then b else a.
Definition Math_min (a b : Q) : Q := if Qle_bool a b then a else b.

(** [String(z)] for an integer. *)
Definition String_of_Z (z : Z) : string := NilZero.string_of_int (Z.to_int z).

(** [s.includes(sub)] *)
Fixpoint includes (sub s : string) : bool :=
  if prefix sub s then true
  else match s with
       | EmptyString => false
       | String _ rest => includes sub rest
       end.

(** Truthiness of a string: non-empty. *)
Definition nonempty (s : string) : bool :=
  match s with
  | EmptyString => false
  | String _ _ => true
  end.

(** The constructors an error thrown in this program can come from.
    [RequestRateLimitError] is the class declared inside the 429 branch of
    [request]; [ExportedRateLimitError] is the class the service module
    exports under the same name.  Both extend [Error] directly. *)
Inductive Class : Type :=
| ErrorClass
| TypeErrorClass
| ExportedRateLimitError
| RequestRateLimitError.

Definition Class_eqb (a b : Class) : bool :=
  match a, b with
  | ErrorClass, ErrorClass
  | TypeErrorClass, TypeErrorClass
  | ExportedRateLimitError, ExportedRateLimitError
  | RequestRateLimitError, RequestRateLimitError => true
  | _, _ => false
  end.

(** The [extends] clause of each class. *)
Definition superclass (c : Class) : option Class :=
  match c with
  | ErrorClass => None
  | TypeErrorClass => Some ErrorClass
  | ExportedRateLimitError => Some ErrorClass
  | RequestRateLimitError => Some ErrorClass
  end.

(** An [Error] object: its constructor and the own fields the program
    reads.  [status] and [retryAfter] are [None] when the field is absent
    or [undefined]. *)
Record Error : Type := mkError {
  ctor : Class;
  name : string;
  message : string;
  status : option Z;
  retryAfter : option Number
}.

(** Whatever a [throw] or a rejected promise carries: an [Error] object,
    or any other value, kept as its [String(...)] rendering. *)
Inductive Thrown : Type :=
| ThrownError (e : Error)
| ThrownOther (rendering : string).

(** Walk of the prototype chain, at most [fuel] links. *)
Fixpoint chain_has (fuel : nat) (c target : Class) : bool :=
  Class_eqb c target ||
  match fuel with
  | O => false
  | S fuel' =>
      match superclass c with
      | Some parent => chain_has fuel' parent target
      | None => false
      end
  end.

(** [err instanceof C] *)
Definition instanceof (err : Thrown) (C : Class) : bool :=
  match err with
  | ThrownError e => chain_has 4 (ctor e) C
  | ThrownOther _ => false
  end.

End Js.

(** ** [src/types/api.ts] *)

Record CoinMarket : Type := mkCoinMarket {
  id : string;
  symbol : string;
  coin_name : string;
  image : string;
  current_price : Q;
  market_cap : Q;
  market_cap_rank : Q;
  total_volume : Q;
  price_change_percentage_24h : option Q
}.

Record MarketChartResponse : Type := mkMarketChartResponse {
  prices : list (Q * Q);
  market_caps : list (Q * Q);
  total_volumes : list (Q * Q)
}.

Record DashboardFilters : Type := mkDashboardFilters {
  vsCurrency : string;
  timeRange : Q;
  selectedCoins : list string;
  primaryCoin : string
}.

(** ** [src/services/coingecko.ts] *)

Module Coingecko.

Inductive ParamValue : Type :=
| PString (s : string)
| PNumber (q : Q)
| PBoolean (b : bool).

(** One call of [fetch] made by [request]: the endpoint appended to the API
    base and the query parameters.  The serialisation into a URL string is
    left out. *)
Record Request : Type := mkRequest {
  endpoint : string;
  params : list (string * ParamValue)
}.

(** What [request] reads of a [Response]. *)
Record Response (T : Type) : Type := mkResponse {
  status : Z;
  header_Retry_After : option string;   (* [headers.get("Retry-After")] *)
  text : Js.Thrown + string;            (* [await response.text()] *)
  json : Js.Thrown + T                  (* [response.json()] *)
}.
Arguments mkResponse {T}.
Arguments status {T}.
Arguments header_Retry_After {T}.
Arguments text {T}.
Arguments json {T}.

(** [response.ok] *)
Definition ok {T} (r : Response T) : bool :=
  ((200 <=? status r) && (status r <=? 299))%Z.

(** How the promise returned by [fetch] settles. *)
Inductive Reply (T : Type) : Type :=
| FetchRejected (e : Js.Thrown)
| FetchResponded (r : Response T).
Arguments FetchRejected {T}.
Arguments FetchResponded {T}.

(** [new RateLimitError(message, retryAfter)] of the class declared inside
    [request]. *)
Definition new_request_RateLimitError (message : string)
    (retryAfter : option Js.Number) : Js.Error :=
  {| Js.ctor := Js.RequestRateLimitError;
     Js.name := "RateLimitError";
     Js.message := message;
     Js.status := Some 429%Z;
     Js.retryAfter := retryAfter |}.

(** [new RateLimitError(message, retryAfter)] of the exported class. *)
Definition RateLimitError (message : string)
    (retryAfter : option Js.Number) : Js.Error :=
  {| Js.ctor := Js.ExportedRateLimitError;
     Js.name := "RateLimitError";
     Js.message := message;
     Js.status := Some 429%Z;
     Js.retryAfter := retryAfter |}.

(** [new Error(message)] *)
Definition new_Error (message : string) : Js.Error :=
  {| Js.ctor := Js.ErrorClass;
     Js.name := "Error";
     Js.message := message;
     Js.status := None;
     Js.retryAfter := None |}.

Section Request.

(** [Number(s)] on a string. *)
Variable Number : string -> Js.Number.

(** The part of [request] after [await fetch(...)]: the value the promise
    of [request] settles with, [inl] for a rejection. *)
Definition request {T} (reply : Reply T) : Js.Thrown + T :=
  match reply with
  | FetchRejected e => inl e
  | FetchResponded response =>
      if (status response =? 429)%Z then
        let retryHeader := header_Retry_After response in
        let retryAfter :=
          match retryHeader with
          | Some h => if Js.nonempty h then Some (Number h) else None
          | None => None
          end in
        inl (Js.ThrownError
               (new_request_RateLimitError "Rate limit exceeded" retryAfter))
      else if negb (ok response) then
        match text response with
        | inl e => inl e
        | inr message =>
            inl (Js.ThrownError
                   (new_Error
                      (if Js.nonempty message then message
                       else "CoinGecko request failed with status "
                              ++ Js.String_of_Z (status response))))
        end
      else json response
  end.

End Request.

(** The [fetch] issued by [getTopMarkets(vsCurrency, perPage, signal)]. *)
Definition getTopMarkets (vsCurrency : string) (perPage : Q) : Request :=
  {| endpoint := "coins/markets";
     params := [ ("vs_currency", PString vsCurrency);
                 ("order", PString "market_cap_desc");
                 ("per_page", PNumber perPage);
                 ("page", PNumber 1);
                 ("sparkline", PBoolean false);
                 ("price_change_percentage", PString "24h") ] |}.

(** The [fetch] issued by [getMarketChart(coinId, vsCurrency, days, signal)]. *)
Definition getMarketChart (coinId vsCurrency : string) (days : Q) : Request :=
  {| endpoint := "coins/" ++ coinId ++ "/market_chart";
     params := [ ("vs_currency", PString vsCurrency);
                 ("days", PNumber days);
                 ("precision", PNumber 2) ] |}.

End Coingecko.

(** ** The state the hook owns and the effects it performs *)

Record DashboardState : Type := mkDashboardState {
  filters : DashboardFilters;
  availableCoins : list CoinMarket;
  selectedCoinMarkets : list CoinMarket;
  chartData : option MarketChartResponse;
  loadingMarkets : bool;
  loadingChart : bool;
  error : option string;
  lastUpdated : option Z
}.

(** An [AbortSignal], as the code reads it at one moment. *)
Record AbortSignal : Type := mkAbortSignal { aborted : bool }.

(** The hook's React state together with what it did to the outside:
    the calls of [fetch] (each with the signal handed over, as it was at
    the call), the delays handed to [window.setTimeout] (the
    k-th call returns the timer id k) and the ids of the timers that are
    still pending (neither fired nor cleared). *)
Record World : Type := mkWorld {
  dash : DashboardState;
  fetches : list (Coingecko.Request * option AbortSignal);
  timers : list Q;
  pending : list nat
}.

(** [signal?.aborted], read as a condition. *)
Definition signal_aborted (signal : option AbortSignal) : bool :=
  match signal with
  | Some s => aborted s
  | None => false
  end.

(** *** A state-and-exception monad for the body of a function *)

Inductive Completion (A : Type) : Type :=
| Normal (a : A)
| Abrupt (e : Js.Thrown).
Arguments Normal {A}.
Arguments Abrupt {A}.

Definition M (A : Type) : Type := World -> Completion A * World.

Definition ret {A} (a : A) : M A := fun w => (Normal a, w).

Definition throw {A} (e : Js.Thrown) : M A := fun w => (Abrupt e, w).

Definition bind {A B} (m : M A) (k : A -> M B) : M B :=
  fun w =>
    match m w with
    | (Normal a, w') => k a w'
    | (Abrupt e, w') => (Abrupt e, w')
    end.

Declare Scope js_scope.
Delimit Scope js_scope with js.
Notation "x <- m ;; k" := (bind m (fun x => k))
  (at level 61, m at next level, right associativity) : js_scope.
Notation "m ;; k" := (bind m (fun _ => k))
  (at level 61, right associativity) : js_scope.

(** [await p] for a promise that settles with [v]. *)
Definition await {A} (v : Js.Thrown + A) : M A :=
  match v with
  | inl e => throw e
  | inr a => ret a
  end.

(** [try { body } catch (err) { handler }] *)
Definition try_catch {A} (body : M A) (handler : Js.Thrown -> M A) : M A :=
  fun w =>
    match body w with
    | (Normal a, w') => (Normal a, w')
    | (Abrupt e, w') => handler e w'
    end.

(** [try { body } finally { finalizer }]: the finalizer always runs; its own
    abrupt completion replaces the completion of the body. *)
Definition try_finally {A} (body : M A) (finalizer : M unit) : M A :=
  fun w =>
    match body w with
    | (c, w') =>
        match finalizer w' with
        | (Normal _, w'') => (c, w'')
        | (Abrupt e, w'') => (Abrupt e, w'')
        end
    end.

Definition try_catch_finally {A} (body : M A) (handler : Js.Thrown -> M A)
    (finalizer : M unit) : M A :=
  try_finally (try_catch body handler) finalizer.

(** The state of the world after running [m]. *)
Definition exec {A} (m : M A) (w : World) : World := snd (m w).

(** How the promise of an [async] body settles. *)
Definition settles {A} (m : M A) (w : World) : Completion A := fst (m w).

(** *** State setters *)

Definition modify_dash (f : DashboardState -> DashboardState) : M unit :=
  fun w => (Normal tt,
            {| dash := f (dash w); fetches := fetches w;
               timers := timers w; pending := pending w |}).

Definition setFiltersState (updater : DashboardFilters -> DashboardFilters)
  : M unit :=
  modify_dash (fun s =>
    mkDashboardState (updater (filters s)) (availableCoins s)
      (selectedCoinMarkets s) (chartData s) (loadingMarkets s)
      (loadingChart s) (error s) (lastUpdated s)).

Definition setAvailableCoins (v : list CoinMarket) : M unit :=
  modify_dash (fun s =>
    mkDashboardState (filters s) v (selectedCoinMarkets s) (chartData s)
      (loadingMarkets s) (loadingChart s) (error s) (lastUpdated s)).

Definition setSelectedCoinMarkets (v : list CoinMarket) : M unit :=
  modify_dash (fun s =>
    mkDashboardState (filters s) (availableCoins s) v (chartData s)
      (loadingMarkets s) (loadingChart s) (error s) (lastUpdated s)).

Definition setChartData (v : option MarketChartResponse) : M unit :=
  modify_dash (fun s =>
    mkDashboardState (filters s) (availableCoins s) (selectedCoinMarkets s) v
      (loadingMarkets s) (loadingChart s) (error s) (lastUpdated s)).

Definition setLoadingMarkets (v : bool) : M unit :=
  modify_dash (fun s =>
    mkDashboardState (filters s) (availableCoins s) (selectedCoinMarkets s)
      (chartData s) v (loadingChart s) (error s) (lastUpdated s)).

Definition setLoadingChart (v : bool) : M unit :=
  modify_dash (fun s =>
    mkDashboardState (filters s) (availableCoins s) (selectedCoinMarkets s)
      (chartData s) (loadingMarkets s) v (error s) (lastUpdated s)).

Definition setError (v : option string) : M unit :=
  modify_dash (fun s =>
    mkDashboardState (filters s) (availableCoins s) (selectedCoinMarkets s)
      (chartData s) (loadingMarkets s) (loadingChart s) v (lastUpdated s)).

Definition setLastUpdated (v : option Z) : M unit :=
  modify_dash (fun s =>
    mkDashboardState (filters s) (availableCoins s) (selectedCoinMarkets s)
      (chartData s) (loadingMarkets s) (loadingChart s) (error s) v).

(** A call of [fetch(url, { headers, signal })]. *)
Definition do_fetch (r : Coingecko.Request) (signal : option AbortSignal)
  : M unit :=
  fun w => (Normal tt,
            {| dash := dash w; fetches := fetches w ++ [(r, signal)];
               timers := timers w; pending := pending w |}).

(** [window.setTimeout(_, delay)], returning the timer id. *)
Definition setTimeout (delay : Q) : M nat :=
  fun w => (Normal (S (length (timers w))),
            {| dash := dash w; fetches := fetches w;
               timers := timers w ++ [delay];
               pending := pending w ++ [S (length (timers w))] |}).

(** [clearTimeout(id)] *)
Definition clearTimeout (timer : nat) : M unit :=
  fun w => (Normal tt,
            {| dash := dash w; fetches := fetches w;
               timers := timers w; pending := remove Nat.eq_dec timer (pending w) |}).

(** ** [src/hooks/useCoinDashboard.ts] *)

Definition DEFAULT_FILTERS : DashboardFilters :=
  {| vsCurrency := "usd"; timeRange := 30; selectedCoins := [];
     primaryCoin := "" |}.

(** The state right after the [useState] calls of the first render. *)
Definition initialState : DashboardState :=
  {| filters := DEFAULT_FILTERS; availableCoins := [];
     selectedCoinMarkets := []; chartData := None; loadingMarkets := false;
     loadingChart := false; error := None; lastUpdated := None |}.

Definition initialWorld : World :=
  {| dash := initialState; fetches := []; timers := []; pending := [] |}.

(** [arr.includes(x)] on an array of strings. *)
Definition Array_includes (arr : list string) (x : string) : bool :=
  existsb (fun y => (y =? x)%string) arr.

(** [arr.filter(Boolean)] on an array whose entries may be [undefined]. *)
Fixpoint filter_Boolean {A} (arr : list (option A)) : list A :=
  match arr with
  | [] => []
  | Some a :: rest => a :: filter_Boolean rest
  | None :: rest => filter_Boolean rest
  end.

(** Line 84: [filters.selectedCoins.filter((coinId) =>
    data.some((coin) => coin.id === coinId))]. *)
Definition filtered (filters : DashboardFilters) (data : list CoinMarket)
  : list string :=
  filter (fun coinId => existsb (fun coin => (id coin =? coinId)%string) data)
         (selectedCoins filters).

(** Line 87: [filtered.includes(filters.primaryCoin) ? filters.primaryCoin
    : filtered[0] ?? ""]. *)
Definition nextPrimary (filters : DashboardFilters) (data : list CoinMarket)
  : string :=
  if Array_includes (filtered filters data) (primaryCoin filters)
  then primaryCoin filters
  else match filtered filters data with
       | first :: _ => first
       | [] => ""
       end.

(** Lines 98-100: [fallbackSelected.map((coinId) => data.find((coin) =>
    coin.id === coinId)).filter(Boolean)]. *)
Definition projection (fallbackSelected : list string)
    (data : list CoinMarket) : list CoinMarket :=
  filter_Boolean
    (map (fun coinId => find (fun coin => (id coin =? coinId)%string) data)
         fallbackSelected).

(** ** [src/utils/array.ts] *)

Module Utils.

(** [a.every((item, index) => item === b[index])], from [index] on; an
    index past the end of [b] reads [undefined], which no string equals. *)
Fixpoint every_matches (a b : list string) (index : nat) : bool :=
  match a with
  | [] => true
  | item :: rest =>
      match nth_error b index with
      | Some other => (item =? other)%string
      | None => false
      end
      && every_matches rest b (S index)
  end.

Definition areArraysEqual (a b : list string) : bool :=
  if negb (length a =? length b)%nat then false
  else every_matches a b 0.

End Utils.

Section Hook.

(** The translation function [t] of [useTranslation()]; the string table
    behind it is not part of the sources at hand. *)
Variable t : string -> list (string * Z) -> string.

(** The comparison the loader imports from [utils/array]; its code is
    [Utils.areArraysEqual].  The loaders take it as a parameter, so that
    what does not depend on it is proved for every comparison. *)
Variable areArraysEqual : list string -> list string -> bool.

Local Open Scope js_scope.

(** The body of both [catch] blocks after the abort check; the two differ
    in the [fallback] message only. *)
Definition report_failure (fallback : string) (err : Js.Thrown) : M unit :=
  if Js.instanceof err Js.ExportedRateLimitError then
    let retry : option Z :=
      match err with
      | Js.ThrownError e =>
          match Js.retryAfter e with
          | Some (Js.Fin q) =>
              if Js.gt0 (Js.Fin q) then Some (Js.Math_round q) else None
          | Some Js.NaN => None
          | None => None
          end
      | Js.ThrownOther _ => None
      end in
    match retry with
    | Some n =>
        if (n =? 0)%Z then setError (Some (t "rateLimitRetryLater" []))
        else setError (Some (t "rateLimitMessage" [("n", n)]))
    | None => setError (Some (t "rateLimitRetryLater" []))
    end
  else
    let msg :=
      match err with
      | Js.ThrownError e => Js.message e
      | Js.ThrownOther rendering => rendering
      end in
    if Js.includes "Failed to fetch" msg || Js.includes "NetworkError" msg
    then setError
           (Some "No se pudo conectar con CoinGecko. Revisa tu conexión o intenta de nuevo.")
    else setError (Some (if Js.nonempty msg then msg else fallback)).

(** [loadMarketOverview], up to its [await]: line 77 and the call of
    [getTopMarkets] on line 79. *)
Definition loadMarketOverview_call (filters : DashboardFilters)
    (signal : option AbortSignal) : M unit :=
  setLoadingMarkets true ;;
  do_fetch (Coingecko.getTopMarkets (vsCurrency filters) 50) signal.

(** [loadMarketOverview], from the [await] on: lines 79-126.  [filters] is
    the value captured by the closure, [signal] the signal as it is when
    the awaited promise settles, [awaited] what that promise settles with. *)
Definition loadMarketOverview_settle (filters : DashboardFilters)
    (signal : option AbortSignal) (now : Z)
    (awaited : Js.Thrown + list CoinMarket) : M unit :=
  try_catch_finally
    (data <- await awaited ;;
     if signal_aborted signal then ret tt
     else
       setAvailableCoins data ;;
       let fallbackSelected := filtered filters data in
       (if negb (areArraysEqual fallbackSelected (selectedCoins filters))
           || negb (nextPrimary filters data =? primaryCoin filters)%string
        then setFiltersState (fun prev =>
               {| vsCurrency := vsCurrency prev;
                  timeRange := timeRange prev;
                  selectedCoins := fallbackSelected;
                  primaryCoin := nextPrimary filters data |})
        else ret tt) ;;
       setSelectedCoinMarkets (projection fallbackSelected data) ;;
       setError None ;;
       setLastUpdated (Some now))
    (fun err =>
       if signal_aborted signal then ret tt
       else report_failure "Unexpected error while loading market data." err)
    (if negb (signal_aborted signal) then setLoadingMarkets false
     else ret tt).

(** [loadChart], up to its [await]: line 133 and the call of
    [getMarketChart] on line 135. *)
Definition loadChart_call (filters : DashboardFilters)
    (signal : option AbortSignal) : M unit :=
  setLoadingChart true ;;
  do_fetch (Coingecko.getMarketChart (primaryCoin filters)
              (vsCurrency filters) (timeRange filters)) signal.

(** [loadChart], from the [await] on: lines 135-161. *)
Definition loadChart_settle (signal : option AbortSignal) (now : Z)
    (awaited : Js.Thrown + MarketChartResponse) : M unit :=
  try_catch_finally
    (data <- await awaited ;;
     if signal_aborted signal then ret tt
     else
       setChartData (Some data) ;;
       setError None ;;
       setLastUpdated (Some now))
    (fun err =>
       if signal_aborted signal then ret tt
       else report_failure "Unexpected error while loading chart data." err)
    (if negb (signal_aborted signal) then setLoadingChart false
     else ret tt).

(** A whole cycle of [loadMarketOverview]: [atCall] and [atSettle] are the
    states of the one signal passed in, when the function is called and
    when the fetch settles; [reply] is what [fetch] settles with. *)
Definition loadMarketOverview (Number : string -> Js.Number)
    (filters : DashboardFilters) (atCall atSettle : option AbortSignal)
    (now : Z) (reply : Coingecko.Reply (list CoinMarket)) : M unit :=
  loadMarketOverview_call filters atCall ;;
  loadMarketOverview_settle filters atSettle now
    (Coingecko.request Number reply).

(** A whole cycle of [loadChart]. *)
Definition loadChart (Number : string -> Js.Number)
    (filters : DashboardFilters) (atCall atSettle : option AbortSignal)
    (now : Z) (reply : Coingecko.Reply MarketChartResponse) : M unit :=
  loadChart_call filters atCall ;;
  loadChart_settle atSettle now (Coingecko.request Number reply).


(** The signal of a controller made by [new AbortController()]. *)
Definition fresh_signal : option AbortSignal := Some {| aborted := false |}.

(** Lines 166-172: the effect that starts a snapshot cycle. *)
Definition marketEffect (filters : DashboardFilters) : M unit :=
  loadMarketOverview_call filters fresh_signal.

(** Lines 174-181: the effect that starts a series cycle. *)
Definition chartEffect (filters : DashboardFilters) : M unit :=
  if negb (Js.nonempty (primaryCoin filters)) then ret tt
  else loadChart_call filters fresh_signal.

(** Lines 240-244: [refreshData], up to the [await]s of the two loaders. *)
Definition refreshData (filters : DashboardFilters) : M unit :=
  loadMarketOverview_call filters fresh_signal ;;
  loadChart_call filters fresh_signal.

(** *** The polling effect, lines 185-238 *)

(** Line 60: [Number((import.meta.env.VITE_AUTO_REFRESH_MS as string) ?? 0)
    || 0]. *)
Definition AUTO_REFRESH_MS (Number : string -> Js.Number)
    (VITE_AUTO_REFRESH_MS : option string) : Js.Number :=
  Js.or (match VITE_AUTO_REFRESH_MS with
         | Some s => Number s
         | None => Js.Fin 0
         end)
        (Js.Fin 0).

(** The variables the closures of the effect share. *)
Record PollRefs : Type := mkPollRefs {
  isFetchingRef : bool;
  failureCountRef : nat;
  cancelled : bool;
  timeoutId : option nat
}.

(** What [scheduleNext] and [attemptFetch] read of the page: [hidden] is
    [typeof document !== "undefined" && document.hidden], [random] the
    value of [Math.random()]. *)
Record Page : Type := mkPage {
  hidden : bool;
  random : Q
}.

(** Line 195: [Math.min(2 ** failureCountRef.current, 8)]. *)
Definition multiplier (failureCount : nat) : Q :=
  Js.Math_min (inject_Z (2 ^ Z.of_nat failureCount)) 8.

(** Lines 196-201: [next] before the jitter. *)
Definition unjittered (base : Q) (failureCount : nat) (hidden : bool) : Q :=
  let next := (base * multiplier failureCount)%Q in
  if hidden then Js.Math_max next (base * 6)%Q else next.

(** Line 204: [Math.round(next * (Math.random() * 0.2 - 0.1))]. *)
Definition jitter (next random : Q) : Z :=
  Js.Math_round (next * (random * (2 # 10) - (1 # 10)))%Q.

(** Line 205: the delay handed to [setTimeout]. *)
Definition delay (base : Q) (failureCount : nat) (page : Page) : Q :=
  let next := unjittered base failureCount (hidden page) in
  Js.Math_max 1000 (next + inject_Z (jitter next (random page)))%Q.

(** Lines 193-208. *)
Definition scheduleNext (base : Q) (page : Page) (p : PollRefs)
  : M PollRefs :=
  timer <- setTimeout (delay base (failureCountRef p) page) ;;
  ret {| isFetchingRef := isFetchingRef p;
         failureCountRef := failureCountRef p;
         cancelled := cancelled p;
         timeoutId := Some timer |}.

(** Lines 210-218: [attemptFetch] up to its [await].  The boolean tells
    whether the function is now suspended at [await Promise.all(...)]. *)
Definition attemptFetch_call (base : Q) (page : Page)
    (filters : DashboardFilters) (p : PollRefs) : M (PollRefs * bool) :=
  if cancelled p then ret (p, false)
  else if isFetchingRef p then
    p' <- scheduleNext base page p ;; ret (p', false)
  else if hidden page then
    p' <- scheduleNext base page p ;; ret (p', false)
  else
    loadMarketOverview_call filters fresh_signal ;;
    loadChart_call filters fresh_signal ;;
    ret ({| isFetchingRef := true;
            failureCountRef := failureCountRef p;
            cancelled := cancelled p;
            timeoutId := timeoutId p |}, true).

(** [Promise.all] of promises that have all settled: fulfilled when every
    one is, rejected with a rejection among them otherwise. *)
Fixpoint Promise_all (ps : list (Completion unit)) : Completion unit :=
  match ps with
  | [] => Normal tt
  | Normal _ :: rest => Promise_all rest
  | Abrupt e :: _ => Abrupt e
  end.

(** Lines 218-228: [attemptFetch] from the [await] on; [all] is how
    [Promise.all([...])] settled. *)
Definition attemptFetch_settle (base : Q) (page : Page)
    (all : Completion unit) (p : PollRefs) : M PollRefs :=
  let failureCount :=
    match all with
    | Normal _ => O
    | Abrupt _ => Nat.min (failureCountRef p + 1) 6
    end in
  let p' := {| isFetchingRef := false;
               failureCountRef := failureCount;
               cancelled := cancelled p;
               timeoutId := timeoutId p |} in
  if negb (cancelled p') then scheduleNext base page p' else ret p'.

(** One polling attempt from its two fetches settling to the end of
    [attemptFetch]: both loaders run their continuation (the signal of the
    attempt is aborted in the [finally] only, after them; the snapshot
    loader is taken to resume first), then [attemptFetch] resumes with the
    outcome of [Promise.all]. *)
Definition attempt_completes (Number : string -> Js.Number) (base : Q)
    (page : Page) (filters : DashboardFilters) (now : Z)
    (marketsReply : Coingecko.Reply (list CoinMarket))
    (chartReply : Coingecko.Reply MarketChartResponse)
    (p : PollRefs) : M PollRefs :=
  fun w =>
    let (markets, w1) :=
      loadMarketOverview_settle filters fresh_signal now
        (Coingecko.request Number marketsReply) w in
    let (chart, w2) :=
      loadChart_settle fresh_signal now
        (Coingecko.request Number chartReply) w1 in
    attemptFetch_settle base page (Promise_all [markets; chart]) p w2.

(** Lines 185-232: the body of the effect.  [None] when the effect returns
    on line 186, before any closure exists. *)
Definition pollingEffect (AUTO_REFRESH_MS : Js.Number) (page : Page)
    (filters : DashboardFilters) : M (option (PollRefs * bool)) :=
  if negb (Js.truthy AUTO_REFRESH_MS) || Js.le0 AUTO_REFRESH_MS then ret None
  else
    match AUTO_REFRESH_MS with
    | Js.NaN => ret None
    | Js.Fin base =>
        r <- attemptFetch_call base page filters
               {| isFetchingRef := false; failureCountRef := O;
                  cancelled := false; timeoutId := None |} ;;
        ret (Some r)
    end.

(** Lines 234-237: the cleanup of the effect. *)
Definition pollingCleanup (p : PollRefs) : M PollRefs :=
  let p' := {| isFetchingRef := isFetchingRef p;
               failureCountRef := failureCountRef p;
               cancelled := true;
               timeoutId := timeoutId p |} in
  match timeoutId p with
  | Some timer => clearTimeout timer ;; ret p'
  | None => ret p'
  end.

(** *** The polling loop driven by the browser *)

(** What can happen to a mounted polling effect: a pending timer fires, the
    two fetches of the attempt in flight settle, or React runs the cleanup. *)
Inductive Event : Type :=
| TimerFires (timer : nat) (page : Page)
| FetchesSettle (page : Page) (now : Z)
    (marketsReply : Coingecko.Reply (list CoinMarket))
    (chartReply : Coingecko.Reply MarketChartResponse)
| CleanupRuns.

(** The closures of one run of the effect: the interval they captured,
    their shared variables, and whether [attemptFetch] is suspended at its
    [await]. *)
Record Loop : Type := mkLoop {
  base : Q;
  refs : PollRefs;
  suspended : bool
}.

(** The browser takes a timer off its list when it fires. *)
Definition timer_fires (timer : nat) : M unit :=
  fun w => (Normal tt,
            {| dash := dash w; fetches := fetches w; timers := timers w;
               pending := remove Nat.eq_dec timer (pending w) |}).

(** One event.  Without a loop (the effect returned on line 186) there is
    no closure a timer or a promise could call. *)
Definition poll_step (Number : string -> Js.Number)
    (filters : DashboardFilters) (loop : option Loop) (ev : Event)
  : M (option Loop) :=
  match loop with
  | None => ret None
  | Some l =>
      match ev with
      | TimerFires timer page =>
          fun w =>
            if existsb (Nat.eqb timer) (pending w) then
              (timer_fires timer ;;
               r <- attemptFetch_call (base l) page filters (refs l) ;;
               ret (Some {| base := base l; refs := fst r;
                            suspended := suspended l || snd r |})) w
            else (Normal (Some l), w)
      | FetchesSettle page now marketsReply chartReply =>
          if suspended l then
            p <- attempt_completes Number (base l) page filters now
                   marketsReply chartReply (refs l) ;;
            ret (Some {| base := base l; refs := p; suspended := false |})
          else ret (Some l)
      | CleanupRuns =>
          p <- pollingCleanup (refs l) ;;
          ret (Some {| base := base l; refs := p;
                       suspended := suspended l |})
      end
  end.

Fixpoint poll_run (Number : string -> Js.Number) (filters : DashboardFilters)
    (loop : option Loop) (evs : list Event) : M (option Loop) :=
  match evs with
  | [] => ret loop
  | ev :: rest =>
      loop' <- poll_step Number filters loop ev ;;
      poll_run Number filters loop' rest
  end.

(** Mounting the effect with the configured interval, then any events. *)
Definition polling (Number : string -> Js.Number)
    (VITE_AUTO_REFRESH_MS : option string) (page : Page)
    (filters : DashboardFilters) (evs : list Event) : M (option Loop) :=
  let interval := AUTO_REFRESH_MS Number VITE_AUTO_REFRESH_MS in
  r <- pollingEffect interval page filters ;;
  poll_run Number filters
    (match r, interval with
     | Some (p, awaiting), Js.Fin b =>
         Some {| base := b; refs := p; suspended := awaiting |}
     | _, _ => None
     end)
    evs.

(** The states of the loop: a timer of the loop is pending, an attempt is
    in flight, or neither. *)
Inductive Phase : Type := Idle | Scheduled | InFlight.

Definition phase (loop : option Loop) (w : World) : Phase :=
  match loop with
  | None => Idle
  | Some l =>
      if suspended l then InFlight
      else match timeoutId (refs l) with
           | Some timer =>
               if existsb (Nat.eqb timer) (pending w) then Scheduled
               else Idle
           | None => Idle
           end
  end.

End Hook.

(** ** [src/services/coingecko.ts], lines 18-47: which endpoint, which
       headers *)

Module Endpoint.

(** The variables of [import.meta.env] the module reads. *)
Record Env : Type := mkEnv {
  VITE_COINGECKO_API_KEY : option string;
  VITE_COINGECKO_API_ROOT : option string;
  VITE_COINGECKO_USE_PRO_API : option string;
  DEV : bool
}.

(** [(v as string) || undefined] *)
Definition or_undefined (v : option string) : option string :=
  match v with
  | Some s => if Js.nonempty s then Some s else None
  | None => None
  end.

Definition ENV_API_KEY (env : Env) : option string :=
  or_undefined (VITE_COINGECKO_API_KEY env).

Definition ENV_API_ROOT (env : Env) : option string :=
  or_undefined (VITE_COINGECKO_API_ROOT env).

(** [(v as string) === "true"] *)
Definition ENV_USE_PRO (env : Env) : bool :=
  match VITE_COINGECKO_USE_PRO_API env with
  | Some s => (s =? "true")%string
  | None => false
  end.

(** Line 27: [ENV_API_KEY ?? undefined]. *)
Definition API_KEY (env : Env) : option string := ENV_API_KEY env.

(** Truthiness of a string that may be [undefined]. *)
Definition defined_nonempty (v : option string) : bool :=
  match v with
  | Some s => Js.nonempty s
  | None => false
  end.

(** Lines 30-38. *)
Definition API_BASE (env : Env) : string :=
  match ENV_API_ROOT env with
  | Some root => root
  | None =>
      if DEV env then "/api/coingecko"
      else if ENV_USE_PRO env then "https://pro-api.coingecko.com/api/v3"
      else if defined_nonempty (API_KEY env)
           then "https://pro-api.coingecko.com/api/v3"
           else "https://api.coingecko.com/api/v3"
  end.

(** Lines 40-47: the headers sent with every request. *)
Definition defaultHeaders (env : Env) : list (string * string) :=
  [("Accept", "application/json")]
  ++ match API_KEY env with
     | Some key =>
         if Js.nonempty key && Js.includes "pro-api" (API_BASE env)
         then [("x-cg-pro-api-key", key)]
         else []
     | None => []
     end.

End Endpoint.

(** ** [setFilters] of the hook, lines 62-73 *)

Definition setFilters (updater : DashboardFilters -> DashboardFilters)
  : M unit :=
  setFiltersState (fun prev =>
    let next := updater prev in
    {| vsCurrency := vsCurrency next; timeRange := timeRange next;
       selectedCoins := selectedCoins next;
       primaryCoin := primaryCoin next |}).

(** ** The updaters the filter panel hands to [setFilters] *)

Module FilterPanel.

Definition MAX_SELECTION : nat := 5.

(** What an updater passes to [setAnnouncement]: the key given to [t] and
    its variables. *)
Inductive Announcement : Type :=
| filterMustKeepOne
| removedFromAnalysis (name : string)
| selectionLimitReached (max : nat)
| addedToAnalysis (name : string).

Definition handleCurrencyChange (value : string) (prev : DashboardFilters)
  : DashboardFilters :=
  {| vsCurrency := value; timeRange := timeRange prev;
     selectedCoins := selectedCoins prev; primaryCoin := primaryCoin prev |}.

Definition handlePrimaryChange (value : string) (prev : DashboardFilters)
  : DashboardFilters :=
  {| vsCurrency := vsCurrency prev; timeRange := timeRange prev;
     selectedCoins := selectedCoins prev; primaryCoin := value |}.

Definition handleRangeChange (value : Q) (prev : DashboardFilters)
  : DashboardFilters :=
  {| vsCurrency := vsCurrency prev; timeRange := value;
     selectedCoins := selectedCoins prev; primaryCoin := primaryCoin prev |}.

(** [availableCoins.find((coin) => coin.id === coinId)?.name ?? coinId] *)
Definition coinName (availableCoins : list CoinMarket) (coinId : string)
  : string :=
  match find (fun coin => (id coin =? coinId)%string) availableCoins with
  | Some coin => coin_name coin
  | None => coinId
  end.

(** The updater of [handleCoinToggle]: the filters it returns and the
    announcement it makes. *)
Definition handleCoinToggle (availableCoins : list CoinMarket)
    (coinId : string) (prev : DashboardFilters)
  : DashboardFilters * Announcement :=
  let alreadySelected := Array_includes (selectedCoins prev) coinId in
  if alreadySelected then
    if (length (selectedCoins prev) =? 1)%nat then (prev, filterMustKeepOne)
    else
      let remaining :=
        filter (fun i => negb (i =? coinId)%string) (selectedCoins prev) in
      let nextPrimary : option string :=
        if Array_includes remaining (primaryCoin prev)
        then Some (primaryCoin prev)
        else hd_error remaining in
      ({| vsCurrency := vsCurrency prev; timeRange := timeRange prev;
          selectedCoins := remaining;
          primaryCoin :=
            match nextPrimary with
            | Some p => p
            | None =>
                match hd_error remaining with
                | Some p => p
                | None => primaryCoin prev
                end
            end |},
       removedFromAnalysis (coinName availableCoins coinId))
  else if (MAX_SELECTION <=? length (selectedCoins prev))%nat then
    (prev, selectionLimitReached MAX_SELECTION)
  else
    ({| vsCurrency := vsCurrency prev; timeRange := timeRange prev;
        selectedCoins := selectedCoins prev ++ [coinId];
        primaryCoin := primaryCoin prev |},
     addedToAnalysis (coinName availableCoins coinId)).

(** The filters after one click on a coin. *)
Definition toggle (availableCoins : list CoinMarket) (coinId : string)
    (prev : DashboardFilters) : DashboardFilters :=
  fst (handleCoinToggle availableCoins coinId prev).

End FilterPanel.

(** ** [src/App.tsx], lines 44-46: the row shown for the primary coin *)

Module App.

Definition primaryCoin_row (st : DashboardState) : option CoinMarket :=
  find (fun coin => (id coin =? primaryCoin (filters st))%string)
       (availableCoins st).

Definition primaryCoinMarket (st : DashboardState) : option CoinMarket :=
  match find (fun coin => (id coin =? primaryCoin (filters st))%string)
             (selectedCoinMarkets st) with
  | Some coin => Some coin
  | None => primaryCoin_row st
  end.

End App.

(** ** Invariants of the filters and of the polling loop *)

(** The invariant the data model asks of the filters: no id selected
    twice, and the primary coin empty or selected. *)
Definition filters_wf (fs : DashboardFilters) : Prop :=
  NoDup (selectedCoins fs)
  /\ (primaryCoin fs = "" \/ In (primaryCoin fs) (selectedCoins fs)).

(** What holds of a polling loop and the timers of the page at every moment
    between two events: the failure counter is 0, [isFetchingRef] tells
    whether an attempt is in flight, at most one timer is pending, it is
    the one [timeoutId] names, and none is pending while an attempt is in
    flight or after the cleanup. *)
Definition poll_inv (loop : option Loop) (w : World) : Prop :=
  match loop with
  | None => pending w = []
  | Some l =>
      failureCountRef (refs l) = O
      /\ isFetchingRef (refs l) = suspended l
      /\ (suspended l = true -> pending w = [])
      /\ (cancelled (refs l) = true -> pending w = [])
      /\ (pending w = []
          \/ exists timer,
               timeoutId (refs l) = Some timer /\ pending w = [timer])
  end.

(** ** A snapshot that arrives after the filters have changed *)

(** [refreshData] is called on a render whose filters are [fs]; while its
    snapshot request is in flight the panel applies [change] through
    [setFilters]; then the request settles with [reply].  The controller
    made by [refreshData] is never aborted, so the continuation of the
    loader runs with the filters [fs] of its closure.  (The render that
    follows [setFilters] starts cycles of its own, which set loading flags
    and issue requests only.) *)
Definition late_snapshot (t : string -> list (string * Z) -> string)
    (areArraysEqual : list string -> list string -> bool)
    (Number : string -> Js.Number) (fs : DashboardFilters)
    (change : DashboardFilters -> DashboardFilters) (now : Z)
    (reply : Coingecko.Reply (list CoinMarket)) : M unit :=
  (refreshData fs ;;
   setFilters change ;;
   loadMarketOverview_settle t areArraysEqual fs fresh_signal now
     (Coingecko.request Number reply))%js.

(** The state of the dashboard when that snapshot arrives. *)
Definition before_late_snapshot (fs : DashboardFilters)
    (change : DashboardFilters -> DashboardFilters) : M unit :=
  (refreshData fs ;; setFilters change)%js.

(** The closure of a loader is current: the selection and the primary
    coin it captured are those of the state.  It is so for every cycle the
    effect of lines 166-172 starts and a change of the filters has not
    aborted. *)
Definition closure_current (fs : DashboardFilters) (w : World) : Prop :=
  selectedCoins fs = selectedCoins (filters (dash w))
  /\ primaryCoin fs = primaryCoin (filters (dash w)).

(** ** Relations the properties are stated with *)

(** [subseq xs ys]: [xs] is [ys] with some entries removed, the order of the
    remaining ones kept. *)
Inductive subseq {A : Type} : list A -> list A -> Prop :=
| subseq_nil : subseq [] []
| subseq_keep x xs ys : subseq xs ys -> subseq (x :: xs) (x :: ys)
| subseq_drop y xs ys : subseq xs ys -> subseq xs (y :: ys).

(** What a loader's continuation leaves alone: the calls of [fetch] and
    the timers. *)
Definition same_outside (w w' : World) : Prop :=
  fetches w' = fetches w /\ timers w' = timers w /\ pending w' = pending w.

(** ** Values to run the model on *)

(** The comparison of [Utils.areArraysEqual] written by recursion on both
    arrays at once; the two agree on all arrays
    ([sameArrays_is_areArraysEqual]). *)
Fixpoint sameArrays (a b : list string) : bool :=
  match a, b with
  | [], [] => true
  | x :: a', y :: b' => (x =? y)%string && sameArrays a' b'
  | _, _ => false
  end.

(** [t] over a string table without entries: [langPack[key] ??
    translations["en"][key] ?? key] is the key, which has no placeholder. *)
Definition t_of_key (key : string) (vars : list (string * Z)) : string := key.

(** [Number(s)] for a string of decimal digits; [NaN] for any other text. *)
Fixpoint digits (acc : Z) (s : string) : option Z :=
  match s with
  | EmptyString => Some acc
  | String c rest =>
      let n := nat_of_ascii c in
      if ((48 <=? n) && (n <=? 57))%nat
      then digits (10 * acc + Z.of_nat (n - 48)) rest
      else None
  end.

Definition Number_of_digits (s : string) : Js.Number :=
  match digits 0 s with
  | Some z => Js.Fin (inject_Z z)
  | None => Js.NaN
  end.

(** A snapshot row with the given id. *)
Definition row (coinId : string) : CoinMarket :=
  {| id := coinId; symbol := coinId; coin_name := coinId; image := "";
     current_price := 1; market_cap := 1; market_cap_rank := 1;
     total_volume := 1; price_change_percentage_24h := None |}.

(** The scenario of section 8: three coins selected, the second primary,
    and a snapshot that has the first of them only. *)
Definition scenarioFilters : DashboardFilters :=
  {| vsCurrency := "usd"; timeRange := 30;
     selectedCoins := ["bitcoin"; "ethereum"; "solana"];
     primaryCoin := "ethereum" |}.

Definition scenarioWorld : World :=
  {| dash := {| filters := scenarioFilters; availableCoins := [];
                selectedCoinMarkets := []; chartData := None;
                loadingMarkets := false; loadingChart := false;
                error := None; lastUpdated := None |};
     fetches := []; timers := []; pending := [] |}.

Definition scenarioSnapshot : list CoinMarket := [row "bitcoin"; row "cardano"].

(** The signal of a controller after [controller.abort()], and what [fetch]
    rejects with for it. *)
Definition aborted_signal : option AbortSignal := Some {| aborted := true |}.

Definition abortError : Js.Thrown :=
  Js.ThrownError {| Js.ctor := Js.ErrorClass; Js.name := "AbortError";
                    Js.message := "signal is aborted without reason";
                    Js.status := None; Js.retryAfter := None |}.

(** A world whose filters are [fs], nothing loaded yet. *)
Definition world_of (fs : DashboardFilters) : World :=
  {| dash := {| filters := fs; availableCoins := [];
                selectedCoinMarkets := []; chartData := None;
                loadingMarkets := false; loadingChart := false;
                error := None; lastUpdated := None |};
     fetches := []; timers := []; pending := [] |}.

(** Two coins selected, the first primary. *)
Definition twoSelected : DashboardFilters :=
  {| vsCurrency := "usd"; timeRange := 30;
     selectedCoins := ["bitcoin"; "ethereum"]; primaryCoin := "bitcoin" |}.

(** Three coins selected, the first primary. *)
Definition threeSelected : DashboardFilters :=
  {| vsCurrency := "usd"; timeRange := 30;
     selectedCoins := ["bitcoin"; "ethereum"; "dogecoin"];
     primaryCoin := "bitcoin" |}.

(** Five coins selected: the limit of the panel. *)
Definition fiveSelected : DashboardFilters :=
  {| vsCurrency := "usd"; timeRange := 30;
     selectedCoins := ["bitcoin"; "ethereum"; "solana"; "cardano";
                       "polkadot"];
     primaryCoin := "bitcoin" |}.

(** A 200 response carrying [body]. *)
Definition ok_response {T} (body : T) : Coingecko.Response T :=
  {| Coingecko.status := 200; Coingecko.header_Retry_After := None;
     Coingecko.text := inr ""; Coingecko.json := inr body |}.

(** A 429 response with the given [Retry-After] header. *)
Definition throttled_response {T} (retry_after : option string)
  : Coingecko.Response T :=
  {| Coingecko.status := 429; Coingecko.header_Retry_After := retry_after;
     Coingecko.text := inr "";
     Coingecko.json := inl (Js.ThrownOther "SyntaxError") |}.

(** * Properties *)

(** ** Lists *)

Lemma subseq_filter {A} (f : A -> bool) (l : list A) :
  subseq (filter f l) l.
Proof.
  induction l as [|a l IH]; simpl.
  - constructor.
  - destruct (f a); now constructor.
Qed.

Lemma filter_length_le {A} (f : A -> bool) (l : list A) :
  (length (filter f l) <= length l)%nat.
Proof.
  induction l as [|a l IH]; simpl; [lia|].
  destruct (f a); simpl; lia.
Qed.

Lemma filter_full_length {A} (f : A -> bool) (l : list A) :
  length (filter f l) = length l -> filter f l = l.
Proof.
  induction l as [|a l IH]; simpl; intros H; [reflexivity|].
  destruct (f a); simpl in H.
  - f_equal. apply IH. lia.
  - pose proof (filter_length_le f l). lia.
Qed.

Lemma existsb_id_In (data : list CoinMarket) (coinId : string) :
  existsb (fun coin => (id coin =? coinId)%string) data = true
  <-> In coinId (map id data).
Proof.
  rewrite existsb_exists, in_map_iff.
  split; intros [c [H1 H2]]; exists c.
  - apply String.eqb_eq in H2. tauto.
  - split; [tauto|]. apply String.eqb_eq. tauto.
Qed.

Lemma existsb_id_map (data : list CoinMarket) (coinId : string) :
  existsb (fun coin => (id coin =? coinId)%string) data
  = existsb (String.eqb coinId) (map id data).
Proof.
  induction data as [|c data IH]; simpl; [reflexivity|].
  rewrite IH. f_equal. apply String.eqb_sym.
Qed.

Lemma Array_includes_In (arr : list string) (x : string) :
  Array_includes arr x = true <-> In x arr.
Proof.
  unfold Array_includes. rewrite existsb_exists.
  split.
  - intros [y [Hy E]]. apply String.eqb_eq in E. now subst.
  - intros H. exists x. split; [assumption|apply String.eqb_refl].
Qed.

Lemma filtered_In (fs : DashboardFilters) (data : list CoinMarket) x :
  In x (filtered fs data) <-> In x (selectedCoins fs) /\ In x (map id data).
Proof.
  unfold filtered. rewrite filter_In, existsb_id_In. tauto.
Qed.

Lemma nextPrimary_valid (fs : DashboardFilters) (data : list CoinMarket) :
  nextPrimary fs data = "" \/ In (nextPrimary fs data) (filtered fs data).
Proof.
  unfold nextPrimary.
  destruct (Array_includes (filtered fs data) (primaryCoin fs)) eqn:E.
  - right. now apply Array_includes_In.
  - destruct (filtered fs data) as [|x rest]; [now left|right; now left].
Qed.

(** Every selected id that occurs in the snapshot has its first snapshot
    entry in the projection, in the order of the selection. *)
Lemma projection_of_present (sel : list string) (data : list CoinMarket) :
  Forall (fun coinId => In coinId (map id data)) sel ->
  Forall2 (fun coinId coin =>
             find (fun c => (id c =? coinId)%string) data = Some coin)
          sel (projection sel data).
Proof.
  unfold projection.
  induction sel as [|x sel IH]; intros H; simpl; [constructor|].
  inversion H as [|? ? Hx Hrest]; subst.
  apply existsb_id_In in Hx.
  destruct (find (fun c => (id c =? x)%string) data) as [c|] eqn:F.
  - constructor; [exact F|now apply IH].
  - exfalso. apply existsb_exists in Hx. destruct Hx as [c [Hin Hc]].
    now rewrite (find_none _ _ F c Hin) in Hc.
Qed.

Lemma projection_entries (sel : list string) (data : list CoinMarket) :
  Forall (fun coin => In coin data /\ In (id coin) sel) (projection sel data).
Proof.
  unfold projection.
  induction sel as [|x sel IH]; simpl; [constructor|].
  assert (IH' : Forall (fun coin => In coin data /\ In (id coin) (x :: sel))
                  (filter_Boolean
                     (map (fun coinId =>
                             find (fun c => (id c =? coinId)%string) data)
                          sel))).
  { eapply Forall_impl; [|exact IH]. simpl. intros c [H1 H2]. tauto. }
  destruct (find (fun c => (id c =? x)%string) data) as [c|] eqn:F;
    [|exact IH'].
  constructor; [|exact IH'].
  apply find_some in F. destruct F as [Hin Hc].
  apply String.eqb_eq in Hc. split; [assumption|left; now symmetry].
Qed.

(** ** The service *)

Lemma request_ok {T} (Number : string -> Js.Number)
    (r : Coingecko.Response T) :
  Coingecko.ok r = true ->
  Coingecko.request Number (Coingecko.FetchResponded r) = Coingecko.json r.
Proof.
  intros H. unfold Coingecko.request. rewrite H. simpl.
  destruct (Coingecko.status r =? 429)%Z eqn:E; [|reflexivity].
  apply Z.eqb_eq in E. unfold Coingecko.ok in H. rewrite E in H.
  discriminate H.
Qed.

(** ** A snapshot cycle that succeeds *)

Section SnapshotSuccess.

Variable t : string -> list (string * Z) -> string.
Variable areArraysEqual : list string -> list string -> bool.
Variable Number : string -> Js.Number.

(** The state a successful snapshot cycle leaves, for a signal that is not
    aborted when the fetch settles; [fs] is the value of [filters] the
    closure captured. *)
Lemma snapshot_success_state (fs : DashboardFilters)
    (atCall atSettle : option AbortSignal) (now : Z)
    (r : Coingecko.Response (list CoinMarket)) (data : list CoinMarket)
    (w : World) :
  Coingecko.ok r = true ->
  Coingecko.json r = inr data ->
  signal_aborted atSettle = false ->
  dash (exec (loadMarketOverview t areArraysEqual Number fs atCall atSettle
                now (Coingecko.FetchResponded r)) w)
  = {| filters :=
         if negb (areArraysEqual (filtered fs data) (selectedCoins fs))
            || negb (nextPrimary fs data =? primaryCoin fs)%string
         then {| vsCurrency := vsCurrency (filters (dash w));
                 timeRange := timeRange (filters (dash w));
                 selectedCoins := filtered fs data;
                 primaryCoin := nextPrimary fs data |}
         else filters (dash w);
       availableCoins := data;
       selectedCoinMarkets := projection (filtered fs data) data;
       chartData := chartData (dash w);
       loadingMarkets := false;
       loadingChart := loadingChart (dash w);
       error := None;
       lastUpdated := Some now |}.
Proof.
  intros Hok Hjson Hsig.
  unfold loadMarketOverview, exec. rewrite (request_ok Number r Hok), Hjson.
  unfold loadMarketOverview_settle, try_catch_finally, try_finally, try_catch,
    loadMarketOverview_call, bind, await, ret.
  rewrite Hsig. simpl.
  destruct (negb (areArraysEqual (filtered fs data) (selectedCoins fs))
            || negb (nextPrimary fs data =? primaryCoin fs)%string);
    reflexivity.
Qed.

End SnapshotSuccess.

Lemma sameArrays_length (a b : list string) :
  sameArrays a b = true -> length a = length b.
Proof.
  revert b. induction a as [|x a IH]; intros [|y b] H; simpl in *;
    try discriminate; [reflexivity|].
  apply andb_true_iff in H. destruct H as [_ H]. f_equal. now apply IH.
Qed.

(** ** The comparison of arrays *)

Lemma every_matches_shift (a b : list string) (y : string) (index : nat) :
  Utils.every_matches a (y :: b) (S index) = Utils.every_matches a b index.
Proof.
  revert index. induction a as [|x a IH]; intros index; simpl;
    [reflexivity|].
  now rewrite IH.
Qed.

Lemma sameArrays_is_areArraysEqual (a b : list string) :
  sameArrays a b = Utils.areArraysEqual a b.
Proof.
  revert b. induction a as [|x a IH]; intros [|y b]; try reflexivity.
  simpl sameArrays. rewrite IH. unfold Utils.areArraysEqual. simpl.
  rewrite every_matches_shift.
  destruct (length a =? length b)%nat; simpl;
    [reflexivity|apply andb_false_r].
Qed.

Lemma areArraysEqual_length (a b : list string) :
  Utils.areArraysEqual a b = true -> length a = length b.
Proof.
  rewrite <- sameArrays_is_areArraysEqual. apply sameArrays_length.
Qed.

(** ** Reconciliation *)

(** What line 84 and line 87 compute depends on the selection and on the
    primary coin of the closure only. *)
Lemma filtered_ext (fs fs' : DashboardFilters) (data : list CoinMarket) :
  selectedCoins fs = selectedCoins fs' ->
  filtered fs data = filtered fs' data.
Proof. unfold filtered. now intros ->. Qed.

Lemma nextPrimary_ext (fs fs' : DashboardFilters) (data : list CoinMarket) :
  selectedCoins fs = selectedCoins fs' ->
  primaryCoin fs = primaryCoin fs' ->
  nextPrimary fs data = nextPrimary fs' data.
Proof.
  intros S P. unfold nextPrimary. now rewrite (filtered_ext fs fs' data S), P.
Qed.

(** The filters a successful cycle leaves when its closure is current: the
    filtered selection and the repaired primary coin, whether or not the
    combined update of lines 89-95 fires. *)
Lemma current_reconciled_filters
    (t : string -> list (string * Z) -> string)
    (Number : string -> Js.Number) (fs : DashboardFilters)
    (atCall atSettle : option AbortSignal) (now : Z)
    (r : Coingecko.Response (list CoinMarket)) (data : list CoinMarket)
    (w : World) :
  closure_current fs w ->
  Coingecko.ok r = true ->
  Coingecko.json r = inr data ->
  signal_aborted atSettle = false ->
  filters (dash (exec (loadMarketOverview t Utils.areArraysEqual Number fs
                         atCall atSettle now (Coingecko.FetchResponded r))
                      w))
  = {| vsCurrency := vsCurrency (filters (dash w));
       timeRange := timeRange (filters (dash w));
       selectedCoins := filtered (filters (dash w)) data;
       primaryCoin := nextPrimary (filters (dash w)) data |}.
Proof.
  intros [CS CP] Hok Hjson Hsig.
  rewrite (snapshot_success_state t Utils.areArraysEqual Number fs atCall
             atSettle now r data w Hok Hjson Hsig).
  simpl.
  rewrite <- (filtered_ext fs (filters (dash w)) data CS).
  rewrite <- (nextPrimary_ext fs (filters (dash w)) data CS CP).
  destruct (Utils.areArraysEqual (filtered fs data) (selectedCoins fs))
    eqn:E; simpl; [|reflexivity].
  destruct (nextPrimary fs data =? primaryCoin fs)%string eqn:P;
    simpl; [|reflexivity].
  apply areArraysEqual_length in E. apply String.eqb_eq in P.
  unfold filtered in E. apply filter_full_length in E.
  unfold filtered at 1. rewrite E, P, CS, CP.
  destruct (filters (dash w)); reflexivity.
Qed.

(** C1, on the code: a snapshot that arrives after the filters have changed
    is reconciled against the filters of the loader's closure.  With
    bitcoin and ethereum selected, [refreshData] is called; the user
    selects solana while the request is in flight; the snapshot lists
    bitcoin and solana.  The selection of that moment, filtered to the
    snapshot, is bitcoin and solana; the cycle leaves bitcoin alone. *)
Theorem late_snapshot_drops_a_listed_coin
    (t : string -> list (string * Z) -> string)
    (Number : string -> Js.Number) (now : Z) :
  let change := FilterPanel.toggle [] "solana" in
  let snapshot := [row "bitcoin"; row "solana"] in
  let arrived := exec (before_late_snapshot twoSelected change)
                      (world_of twoSelected) in
  let reconciled :=
    exec (late_snapshot t Utils.areArraysEqual Number twoSelected change now
            (Coingecko.FetchResponded (ok_response snapshot)))
         (world_of twoSelected) in
  selectedCoins (filters (dash arrived)) = ["bitcoin"; "ethereum"; "solana"]
  /\ filter (fun coinId => existsb (String.eqb coinId) (map id snapshot))
            (selectedCoins (filters (dash arrived)))
     = ["bitcoin"; "solana"]
  /\ selectedCoins (filters (dash reconciled)) = ["bitcoin"]
  /\ error (dash reconciled) = None.
Proof. repeat split. Qed.

(** C2, on the code: with bitcoin, ethereum and dogecoin selected and
    bitcoin primary, [refreshData] is called; the user makes ethereum the
    primary coin while the request is in flight; the snapshot lists
    bitcoin and ethereum.  The primary coin of that moment, ethereum, is
    still in the filtered selection, yet the cycle writes the primary coin
    its closure had, bitcoin. *)
Theorem late_snapshot_replaces_a_valid_primary
    (t : string -> list (string * Z) -> string)
    (Number : string -> Js.Number) (now : Z) :
  let change := FilterPanel.handlePrimaryChange "ethereum" in
  let snapshot := [row "bitcoin"; row "ethereum"] in
  let arrived := exec (before_late_snapshot threeSelected change)
                      (world_of threeSelected) in
  let reconciled :=
    exec (late_snapshot t Utils.areArraysEqual Number threeSelected change
            now (Coingecko.FetchResponded (ok_response snapshot)))
         (world_of threeSelected) in
  primaryCoin (filters (dash arrived)) = "ethereum"
  /\ selectedCoins (filters (dash reconciled)) = ["bitcoin"; "ethereum"]
  /\ In (primaryCoin (filters (dash arrived)))
        (selectedCoins (filters (dash reconciled)))
  /\ primaryCoin (filters (dash reconciled)) = "bitcoin".
Proof. repeat split. simpl. tauto. Qed.

(** C8, on the code: with bitcoin and ethereum selected, [refreshData] is
    called; the user deselects ethereum while the request is in flight;
    the snapshot lists both.  The closure's selection equals its filtered
    selection, so the filters are left as the user set them, bitcoin
    alone, while the projection is made from the closure's selection and
    holds the rows of bitcoin and of ethereum. *)
Theorem late_snapshot_projects_a_deselected_coin
    (t : string -> list (string * Z) -> string)
    (Number : string -> Js.Number) (now : Z) :
  let change := FilterPanel.toggle [] "ethereum" in
  let snapshot := [row "bitcoin"; row "ethereum"] in
  let reconciled :=
    exec (late_snapshot t Utils.areArraysEqual Number twoSelected change now
            (Coingecko.FetchResponded (ok_response snapshot)))
         (world_of twoSelected) in
  selectedCoins (filters (dash reconciled)) = ["bitcoin"]
  /\ selectedCoinMarkets (dash reconciled) = [row "bitcoin"; row "ethereum"]
  /\ projection (selectedCoins (filters (dash reconciled))) snapshot
     = [row "bitcoin"]
  /\ ~ In (id (row "ethereum")) (selectedCoins (filters (dash reconciled))).
Proof.
  repeat split. simpl. intros [H|[]]. discriminate H.
Qed.

(** X26: for a successful snapshot cycle whose closure is current, the
    selection after the cycle is the selection before it filtered to the
    ids of the snapshot: a subsequence in the same order, only ids of the
    snapshot, none added.  With bitcoin, ethereum and solana selected and
    a snapshot of bitcoin and cardano it is bitcoin alone. *)
Theorem current_cycle_selection
    (t : string -> list (string * Z) -> string)
    (Number : string -> Js.Number) (fs : DashboardFilters)
    (atCall atSettle : option AbortSignal) (now : Z)
    (r : Coingecko.Response (list CoinMarket)) (data : list CoinMarket)
    (w : World) :
  closure_current fs w ->
  Coingecko.ok r = true ->
  Coingecko.json r = inr data ->
  signal_aborted atSettle = false ->
  let before := selectedCoins (filters (dash w)) in
  let after :=
    selectedCoins
      (filters (dash (exec (loadMarketOverview t Utils.areArraysEqual Number
                              fs atCall atSettle now
                              (Coingecko.FetchResponded r)) w))) in
  after = filter (fun coinId => existsb (String.eqb coinId) (map id data))
                 before
  /\ subseq after before
  /\ Forall (fun coinId => In coinId (map id data)) after
  /\ (forall coinId, In coinId after -> In coinId before)
  /\ (before = ["bitcoin"; "ethereum"; "solana"] ->
      map id data = ["bitcoin"; "cardano"] ->
      after = ["bitcoin"]).
Proof.
  intros Hc Hok Hjson Hsig before after.
  assert (Hsel : after = filtered (filters (dash w)) data).
  { subst after.
    now rewrite (current_reconciled_filters t Number fs atCall atSettle now r
                   data w Hc Hok Hjson Hsig). }
  assert (E : after
              = filter (fun coinId => existsb (String.eqb coinId) (map id data))
                       before).
  { rewrite Hsel. unfold filtered. subst before.
    apply filter_ext. intros coinId. apply existsb_id_map. }
  split; [exact E|].
  split; [rewrite E; apply subseq_filter|].
  split.
  { rewrite Hsel. apply Forall_forall. intros x Hx.
    now apply filtered_In in Hx. }
  split.
  { intros x Hx. rewrite E in Hx. apply filter_In in Hx. tauto. }
  intros Hb Hd. rewrite E, Hb, Hd. reflexivity.
Qed.

Lemma current_cycle_selection_witness :
  selectedCoins
    (filters (dash (exec (loadMarketOverview t_of_key Utils.areArraysEqual
                            Number_of_digits scenarioFilters fresh_signal
                            fresh_signal 1700000000
                            (Coingecko.FetchResponded
                               (ok_response scenarioSnapshot)))
                         scenarioWorld)))
  = ["bitcoin"].
Proof.
  apply (current_cycle_selection t_of_key Number_of_digits scenarioFilters
           fresh_signal fresh_signal 1700000000
           (ok_response scenarioSnapshot) scenarioSnapshot scenarioWorld
           (conj eq_refl eq_refl));
    reflexivity.
Defined.

(** X27: for a successful snapshot cycle whose closure is current, the
    primary coin after the cycle is the one before it if that is still
    selected, else the first selected coin, else the empty string; so it
    is empty or selected. *)
Theorem current_cycle_primary
    (t : string -> list (string * Z) -> string)
    (Number : string -> Js.Number) (fs : DashboardFilters)
    (atCall atSettle : option AbortSignal) (now : Z)
    (r : Coingecko.Response (list CoinMarket)) (data : list CoinMarket)
    (w : World) :
  closure_current fs w ->
  Coingecko.ok r = true ->
  Coingecko.json r = inr data ->
  signal_aborted atSettle = false ->
  let old := primaryCoin (filters (dash w)) in
  let w' := exec (loadMarketOverview t Utils.areArraysEqual Number fs atCall
                    atSettle now (Coingecko.FetchResponded r)) w in
  let selected := selectedCoins (filters (dash w')) in
  let primary := primaryCoin (filters (dash w')) in
  (In old selected -> primary = old)
  /\ (~ In old selected -> primary = hd "" selected)
  /\ (primary = "" \/ In primary selected).
Proof.
  intros Hc Hok Hjson Hsig old w' selected primary.
  pose proof (current_reconciled_filters t Number fs atCall atSettle now r
                data w Hc Hok Hjson Hsig) as F.
  fold w' in F.
  assert (Hsel : selected = filtered (filters (dash w)) data)
    by (subst selected; now rewrite F).
  assert (Hprim : primary = nextPrimary (filters (dash w)) data)
    by (subst primary; now rewrite F).
  rewrite Hsel, Hprim. clear F Hsel Hprim.
  split; [|split].
  - intros Hin. unfold nextPrimary.
    apply Array_includes_In in Hin. fold old. now rewrite Hin.
  - intros Hnot. unfold nextPrimary. fold old.
    destruct (Array_includes (filtered (filters (dash w)) data) old) eqn:E.
    + apply Array_includes_In in E. contradiction.
    + destruct (filtered (filters (dash w)) data); reflexivity.
  - apply nextPrimary_valid.
Qed.

Lemma current_cycle_primary_witness :
  primaryCoin
    (filters (dash (exec (loadMarketOverview t_of_key Utils.areArraysEqual
                            Number_of_digits scenarioFilters fresh_signal
                            fresh_signal 1700000000
                            (Coingecko.FetchResponded
                               (ok_response scenarioSnapshot)))
                         scenarioWorld)))
  = "bitcoin".
Proof.
  refine (proj1 (proj2 (current_cycle_primary t_of_key Number_of_digits
                          scenarioFilters fresh_signal fresh_signal
                          1700000000 (ok_response scenarioSnapshot)
                          scenarioSnapshot scenarioWorld
                          (conj eq_refl eq_refl)
                          eq_refl eq_refl eq_refl)) _).
  vm_compute. intros [H|H]; [discriminate H|exact H].
Defined.

(** X28: for a successful snapshot cycle whose closure is current, the
    selected markets hold, for each id of the selection after the cycle
    and in its order, the snapshot row found for that id; each of them is
    a snapshot row whose id is selected. *)
Theorem current_cycle_projection
    (t : string -> list (string * Z) -> string)
    (Number : string -> Js.Number) (fs : DashboardFilters)
    (atCall atSettle : option AbortSignal) (now : Z)
    (r : Coingecko.Response (list CoinMarket)) (data : list CoinMarket)
    (w : World) :
  closure_current fs w ->
  Coingecko.ok r = true ->
  Coingecko.json r = inr data ->
  signal_aborted atSettle = false ->
  let w' := exec (loadMarketOverview t Utils.areArraysEqual Number fs atCall
                    atSettle now (Coingecko.FetchResponded r)) w in
  let selected := selectedCoins (filters (dash w')) in
  let markets := selectedCoinMarkets (dash w') in
  markets
  = filter_Boolean
      (map (fun coinId => find (fun coin => (id coin =? coinId)%string) data)
           selected)
  /\ Forall2 (fun coinId coin =>
                find (fun c => (id c =? coinId)%string) data = Some coin)
             selected markets
  /\ Forall (fun coin => In coin data /\ In (id coin) selected) markets.
Proof.
  intros Hc Hok Hjson Hsig w' selected markets.
  pose proof (current_reconciled_filters t Number fs atCall atSettle now r
                data w Hc Hok Hjson Hsig) as F.
  fold w' in F.
  assert (Hsel : selected = filtered (filters (dash w)) data)
    by (subst selected; now rewrite F).
  assert (Hm : markets = projection selected data).
  { subst markets w'.
    rewrite (snapshot_success_state t Utils.areArraysEqual Number fs atCall
               atSettle now r data w Hok Hjson Hsig).
    simpl. rewrite Hsel.
    now rewrite (filtered_ext fs (filters (dash w)) data (proj1 Hc)). }
  rewrite Hm. split; [reflexivity|]. split.
  - apply projection_of_present. rewrite Hsel.
    apply Forall_forall. intros x Hx. now apply filtered_In in Hx.
  - apply projection_entries.
Qed.

Lemma current_cycle_projection_witness :
  selectedCoinMarkets
    (dash (exec (loadMarketOverview t_of_key Utils.areArraysEqual
                   Number_of_digits scenarioFilters fresh_signal
                   fresh_signal 1700000000
                   (Coingecko.FetchResponded (ok_response scenarioSnapshot)))
                scenarioWorld))
  = [row "bitcoin"].
Proof.
  refine (eq_trans
            (proj1 (current_cycle_projection t_of_key Number_of_digits
                      scenarioFilters fresh_signal fresh_signal 1700000000
                      (ok_response scenarioSnapshot) scenarioSnapshot
                      scenarioWorld (conj eq_refl eq_refl) eq_refl eq_refl
                      eq_refl)) _).
  reflexivity.
Defined.

(** ** Cancellation *)

Section Cancellation.

Variable t : string -> list (string * Z) -> string.
Variable areArraysEqual : list string -> list string -> bool.

(** With the signal aborted when the fetch settles, the [try] block returns
    on line 80 or the [catch] block on line 105, and the [finally] block
    skips its write. *)
Lemma loadMarketOverview_settle_aborted (fs : DashboardFilters)
    (signal : option AbortSignal) (now : Z)
    (awaited : Js.Thrown + list CoinMarket) (w : World) :
  signal_aborted signal = true ->
  loadMarketOverview_settle t areArraysEqual fs signal now awaited w
  = (Normal tt, w).
Proof.
  intros H.
  unfold loadMarketOverview_settle, try_catch_finally, try_finally, try_catch,
    bind, await, ret, throw.
  rewrite H. destruct awaited; reflexivity.
Qed.

Lemma loadChart_settle_aborted (signal : option AbortSignal) (now : Z)
    (awaited : Js.Thrown + MarketChartResponse) (w : World) :
  signal_aborted signal = true ->
  loadChart_settle t signal now awaited w = (Normal tt, w).
Proof.
  intros H.
  unfold loadChart_settle, try_catch_finally, try_finally, try_catch,
    bind, await, ret, throw.
  rewrite H. destruct awaited; reflexivity.
Qed.

End Cancellation.

(** Every cycle the hook starts hands over the signal of a controller made
    just before the call, not yet aborted: the two effects (lines 167-168
    and 176-177), [refreshData] (lines 241-243) and [attemptFetch] (lines
    216-218). *)
Lemma every_cycle_starts_with_a_fresh_signal (interval : Q) (page : Page)
    (fs : DashboardFilters) (p : PollRefs) (w : World) :
  let started_by (m : World -> World) :=
    forall entry, In entry (fetches (m w)) ->
                  In entry (fetches w) \/ signal_aborted (snd entry) = false in
  started_by (exec (marketEffect fs))
  /\ started_by (exec (chartEffect fs))
  /\ started_by (exec (refreshData fs))
  /\ started_by (exec (attemptFetch_call interval page fs p)).
Proof.
  simpl. repeat split; intros entry.
  - unfold exec, marketEffect, loadMarketOverview_call, bind. simpl.
    rewrite in_app_iff. intros [H|[<-|[]]]; tauto.
  - unfold exec, chartEffect.
    destruct (negb (Js.nonempty (primaryCoin fs))); [simpl; tauto|].
    unfold loadChart_call, bind. simpl.
    rewrite in_app_iff. intros [H|[<-|[]]]; tauto.
  - unfold exec, refreshData, loadMarketOverview_call, loadChart_call, bind.
    simpl. rewrite !in_app_iff. intros [[H|[<-|[]]]|[<-|[]]]; tauto.
  - unfold exec, attemptFetch_call.
    destruct (cancelled p); [simpl; tauto|].
    destruct (isFetchingRef p); [simpl; tauto|].
    destruct (hidden page); [simpl; tauto|].
    unfold loadMarketOverview_call, loadChart_call, bind.
    simpl. rewrite !in_app_iff. intros [[H|[<-|[]]]|[<-|[]]]; tauto.
Qed.

(** C3: a cycle whose signal is aborted by the time its fetch settles
    writes nothing after the abort.  The cycle is called with the fresh
    signal of its controller; whatever happens next (the abort, the
    writes of newer cycles, here [newer]) and whatever the fetch settles
    with, the continuation of the loader leaves the whole state as it
    finds it: [loading], [error], [availableCoins], [selectedCoinMarkets],
    [chartData], [filters] and [lastUpdated] are not written, and the
    promise of the loader is fulfilled.  Every write that follows the
    [await] is behind a test of the signal. *)
Theorem cancelled_cycle_writes_nothing_after_abort
    (t : string -> list (string * Z) -> string)
    (areArraysEqual : list string -> list string -> bool)
    (Number : string -> Js.Number)
    (fs : DashboardFilters) (atSettle : option AbortSignal) (now : Z)
    (marketsReply : Coingecko.Reply (list CoinMarket))
    (chartReply : Coingecko.Reply MarketChartResponse)
    (newer : World -> World) (w : World) :
  signal_aborted atSettle = true ->
  let snapshot_arrives :=
    newer (exec (loadMarketOverview_call fs fresh_signal) w) in
  let series_arrives :=
    newer (exec (loadChart_call fs fresh_signal) w) in
  loadMarketOverview_settle t areArraysEqual fs atSettle now
    (Coingecko.request Number marketsReply) snapshot_arrives
  = (Normal tt, snapshot_arrives)
  /\ loadChart_settle t atSettle now (Coingecko.request Number chartReply)
       series_arrives
     = (Normal tt, series_arrives)
  /\ dash (exec (loadMarketOverview_settle t areArraysEqual fs atSettle now
                   (Coingecko.request Number marketsReply)) snapshot_arrives)
     = dash snapshot_arrives
  /\ dash (exec (loadChart_settle t atSettle now
                   (Coingecko.request Number chartReply)) series_arrives)
     = dash series_arrives.
Proof.
  intros H snapshot_arrives series_arrives.
  unfold exec.
  rewrite (loadMarketOverview_settle_aborted t areArraysEqual fs atSettle now
             _ snapshot_arrives H).
  rewrite (loadChart_settle_aborted t atSettle now _ series_arrives H).
  repeat split.
Qed.

Lemma cancelled_cycle_writes_nothing_after_abort_witness :
  loadMarketOverview_settle t_of_key sameArrays scenarioFilters
    aborted_signal 1700000000
    (Coingecko.request Number_of_digits
       (Coingecko.FetchResponded (ok_response scenarioSnapshot)))
    (exec (setFilters (FilterPanel.toggle scenarioSnapshot "cardano"))
          (exec (loadMarketOverview_call scenarioFilters fresh_signal)
                scenarioWorld))
  = (Normal tt,
     exec (setFilters (FilterPanel.toggle scenarioSnapshot "cardano"))
          (exec (loadMarketOverview_call scenarioFilters fresh_signal)
                scenarioWorld)).
Proof.
  apply (cancelled_cycle_writes_nothing_after_abort t_of_key sameArrays
           Number_of_digits scenarioFilters aborted_signal 1700000000
           (Coingecko.FetchResponded (ok_response scenarioSnapshot))
           (Coingecko.FetchResponded
              (ok_response (mkMarketChartResponse [] [] [])))
           (exec (setFilters (FilterPanel.toggle scenarioSnapshot "cardano")))
           scenarioWorld).
  reflexivity.
Defined.

(** ** Rate limiting *)

(** C10: on a response with status 429 [request] rejects with an error
    named "RateLimitError", of status 429, whose [retryAfter] is
    [Number(header)] for a non-empty [Retry-After] header and [undefined]
    without one; the error is made from the class declared inside
    [request], not from the exported [RateLimitError], so
    [err instanceof RateLimitError] is false for it. *)
Theorem request_429_is_not_the_exported_class (T : Type)
    (Number : string -> Js.Number) (header : option string)
    (body : Js.Thrown + string) (parsed : Js.Thrown + T) :
  exists e : Js.Error,
    Coingecko.request Number
      (Coingecko.FetchResponded
         {| Coingecko.status := 429; Coingecko.header_Retry_After := header;
            Coingecko.text := body; Coingecko.json := parsed |})
    = inl (Js.ThrownError e)
    /\ Js.name e = "RateLimitError"
    /\ Js.message e = "Rate limit exceeded"
    /\ Js.status e = Some 429%Z
    /\ Js.retryAfter e
       = match header with
         | Some h => if Js.nonempty h then Some (Number h) else None
         | None => None
         end
    /\ Js.ctor e = Js.RequestRateLimitError
    /\ Js.ctor e <> Js.ctor (Coingecko.RateLimitError "Rate limit exceeded"
                               (Js.retryAfter e))
    /\ Js.instanceof (Js.ThrownError e) Js.ExportedRateLimitError = false
    /\ Js.instanceof (Js.ThrownError e) Js.ErrorClass = true.
Proof.
  eexists. split; [reflexivity|]. simpl.
  repeat split; try reflexivity. discriminate.
Qed.

Section Failure.

Variable t : string -> list (string * Z) -> string.
Variable areArraysEqual : list string -> list string -> bool.

(** A [catch] body comes down to one [setError] with some message. *)
Lemma report_failure_is_setError (fallback : string) (err : Js.Thrown) :
  exists msg, report_failure t fallback err = setError (Some msg).
Proof.
  unfold report_failure.
  destruct (Js.instanceof err Js.ExportedRateLimitError).
  - destruct err as [e|s]; [|eexists; reflexivity].
    destruct (Js.retryAfter e) as [[|q]|]; try (eexists; reflexivity).
    destruct (Js.gt0 (Js.Fin q)); [|eexists; reflexivity].
    destruct (Js.Math_round q =? 0)%Z; eexists; reflexivity.
  - destruct (Js.includes "Failed to fetch" _ || Js.includes "NetworkError" _);
      eexists; reflexivity.
Qed.

(** The promise of [loadMarketOverview] is never rejected: whatever the
    fetch settles with, the [catch] block absorbs it. *)
Lemma loadMarketOverview_never_rejects (fs : DashboardFilters)
    (signal : option AbortSignal) (now : Z)
    (awaited : Js.Thrown + list CoinMarket) (w : World) :
  settles (loadMarketOverview_settle t areArraysEqual fs signal now awaited) w
  = Normal tt
  /\ same_outside w
       (exec (loadMarketOverview_settle t areArraysEqual fs signal now
                awaited) w).
Proof.
  destruct (signal_aborted signal) eqn:S.
  - unfold settles, exec. rewrite loadMarketOverview_settle_aborted by exact S.
    repeat split.
  - unfold settles, exec, loadMarketOverview_settle, try_catch_finally,
      try_finally, try_catch, bind, await, ret, throw.
    rewrite S. destruct awaited as [err|data]; simpl.
    + destruct (report_failure_is_setError
                  "Unexpected error while loading market data." err)
        as [msg ->].
      repeat split.
    + destruct (negb (areArraysEqual (filtered fs data) (selectedCoins fs))
                || negb (nextPrimary fs data =? primaryCoin fs)%string);
        repeat split.
Qed.

(** Nor is the promise of [loadChart]. *)
Lemma loadChart_never_rejects (signal : option AbortSignal) (now : Z)
    (awaited : Js.Thrown + MarketChartResponse) (w : World) :
  settles (loadChart_settle t signal now awaited) w = Normal tt
  /\ same_outside w (exec (loadChart_settle t signal now awaited) w).
Proof.
  destruct (signal_aborted signal) eqn:S.
  - unfold settles, exec. rewrite loadChart_settle_aborted by exact S.
    repeat split.
  - unfold settles, exec, loadChart_settle, try_catch_finally, try_finally,
      try_catch, bind, await, ret, throw.
    rewrite S. destruct awaited as [err|data]; simpl; [|repeat split].
    destruct (report_failure_is_setError
                "Unexpected error while loading chart data." err)
      as [msg ->].
    repeat split.
Qed.

End Failure.

(** The [catch] blocks do have a rate-limit branch: an instance of the
    exported class that carries 12 seconds is reported through the
    "rateLimitMessage" entry with [n = 12]. *)
Lemma exported_RateLimitError_reports_seconds
    (t : string -> list (string * Z) -> string) (fallback : string)
    (w : World) :
  error (dash (exec (report_failure t fallback
                       (Js.ThrownError
                          (Coingecko.RateLimitError "Rate limit exceeded"
                             (Some (Js.Fin 12))))) w))
  = Some (t "rateLimitMessage" [("n", 12%Z)]).
Proof. reflexivity. Qed.

(** C5, on the code: a 429 whose [Retry-After] is 12 reaches the [catch]
    block as an error that is not an instance of the exported
    [RateLimitError]; the generic branch handles it and [error] becomes the
    message of the error, "Rate limit exceeded", in which "12" does not
    occur. *)
Theorem throttled_fetch_reports_generic_message
    (t : string -> list (string * Z) -> string)
    (areArraysEqual : list string -> list string -> bool)
    (fs : DashboardFilters) (atCall : option AbortSignal) (now : Z)
    (w : World) :
  Coingecko.request Number_of_digits
    (Coingecko.FetchResponded
       (throttled_response (T:=list CoinMarket) (Some "12")))
  = inl (Js.ThrownError
           (Coingecko.new_request_RateLimitError "Rate limit exceeded"
              (Some (Js.Fin 12))))
  /\ error (dash (exec (loadMarketOverview t areArraysEqual Number_of_digits
                          fs atCall fresh_signal now
                          (Coingecko.FetchResponded
                             (throttled_response (Some "12")))) w))
     = Some "Rate limit exceeded"
  /\ error (dash (exec (loadChart t Number_of_digits
                          fs atCall fresh_signal now
                          (Coingecko.FetchResponded
                             (throttled_response (Some "12")))) w))
     = Some "Rate limit exceeded"
  /\ Js.includes "12" "Rate limit exceeded" = false.
Proof. repeat split. Qed.

(** ** Polling *)

(** C4, on the code: an attempt of the polling loop whose fetches fail is
    not counted.  Both loaders absorb the failure, [Promise.all] is
    fulfilled, and [attemptFetch] takes its success path: whatever the two
    fetches settled with and whatever the counter was, the counter is 0
    afterwards and the next timer is set with the multiplier 1. *)
Theorem polling_attempt_always_resets_counter
    (t : string -> list (string * Z) -> string)
    (areArraysEqual : list string -> list string -> bool)
    (Number : string -> Js.Number) (interval : Q) (page : Page)
    (fs : DashboardFilters) (now : Z)
    (marketsReply : Coingecko.Reply (list CoinMarket))
    (chartReply : Coingecko.Reply MarketChartResponse)
    (p : PollRefs) (w : World) :
  exists p' : PollRefs,
    settles (attempt_completes t areArraysEqual Number interval page fs now
               marketsReply chartReply p) w = Normal p'
    /\ failureCountRef p' = O
    /\ isFetchingRef p' = false
    /\ (cancelled p = false ->
        timers (exec (attempt_completes t areArraysEqual Number interval page
                        fs now marketsReply chartReply p) w)
        = timers w ++ [delay interval 0 page])
    /\ multiplier (failureCountRef p') == 1.
Proof.
  unfold attempt_completes, settles, exec.
  destruct (loadMarketOverview_never_rejects t areArraysEqual fs
              fresh_signal now (Coingecko.request Number marketsReply) w)
    as [HM [_ [TM _]]].
  unfold settles, exec in HM, TM.
  destruct (loadMarketOverview_settle t areArraysEqual fs fresh_signal now
              (Coingecko.request Number marketsReply) w) as [cM w1].
  simpl in HM, TM. subst cM.
  destruct (loadChart_never_rejects t fresh_signal now
              (Coingecko.request Number chartReply) w1) as [HC [_ [TC _]]].
  unfold settles, exec in HC, TC.
  destruct (loadChart_settle t fresh_signal now
              (Coingecko.request Number chartReply) w1) as [cC w2].
  simpl in HC, TC. subst cC.
  unfold attemptFetch_settle, Promise_all, scheduleNext, bind, setTimeout, ret.
  simpl.
  destruct (cancelled p) eqn:C; simpl.
  - eexists. split; [reflexivity|]. simpl.
    repeat split; try reflexivity. discriminate.
  - eexists. split; [reflexivity|]. simpl.
    repeat split; try reflexivity. intros _. now rewrite TC, TM.
Qed.

(** C6, on the code: with an empty primary coin the filter-change effect
    issues no series request, but [refreshData] and a polling attempt call
    [loadChart] all the same, which requests "coins//market_chart". *)
Theorem empty_primary_series_request :
  primaryCoin DEFAULT_FILTERS = ""
  /\ exec (chartEffect DEFAULT_FILTERS) initialWorld = initialWorld
  /\ map fst (fetches (exec (refreshData DEFAULT_FILTERS) initialWorld))
     = [Coingecko.getTopMarkets "usd" 50;
        Coingecko.getMarketChart "" "usd" 30]
  /\ map fst (fetches (exec (pollingEffect (Js.Fin 30000)
                               {| hidden := false; random := 1 # 2 |}
                               DEFAULT_FILTERS) initialWorld))
     = [Coingecko.getTopMarkets "usd" 50;
        Coingecko.getMarketChart "" "usd" 30]
  /\ Coingecko.endpoint (Coingecko.getMarketChart "" "usd" 30)
     = "coins//market_chart"
  /\ loadingChart (dash (exec (refreshData DEFAULT_FILTERS) initialWorld))
     = true.
Proof. repeat split. Qed.

(** The same for any filters with an empty primary coin: the effect leaves
    the world alone, [refreshData] adds a series request. *)
Lemma empty_primary_in_general (fs : DashboardFilters) (w : World) :
  primaryCoin fs = "" ->
  exec (chartEffect fs) w = w
  /\ In (Coingecko.getMarketChart "" (vsCurrency fs) (timeRange fs))
        (map fst (fetches (exec (refreshData fs) w))).
Proof.
  intros H. unfold chartEffect, refreshData, exec. rewrite H. simpl.
  split; [reflexivity|].
  rewrite !map_app, !in_app_iff. simpl. rewrite H. tauto.
Qed.

(** *** The delay *)

Lemma Math_max_ge_l (a b : Q) : a <= Js.Math_max a b.
Proof.
  unfold Js.Math_max. destruct (Qle_bool a b) eqn:E.
  - now apply Qle_bool_iff.
  - apply Qle_refl.
Qed.

Lemma Math_max_ge_r (a b : Q) : b <= Js.Math_max a b.
Proof.
  unfold Js.Math_max. destruct (Qle_bool a b) eqn:E.
  - apply Qle_refl.
  - apply Qlt_le_weak, Qnot_le_lt. intros H.
    apply Qle_bool_iff in H. congruence.
Qed.

Lemma Math_round_ge (x : Q) : x - (1 # 2) <= inject_Z (Js.Math_round x).
Proof.
  unfold Js.Math_round.
  pose proof (Qlt_floor (x + (1 # 2))) as H.
  rewrite inject_Z_plus in H. change (inject_Z 1) with 1%Q in H.
  set (n := inject_Z (Qfloor (x + (1 # 2)))) in *. lra.
Qed.

Lemma Math_round_le (x : Q) : inject_Z (Js.Math_round x) <= x + (1 # 2).
Proof. unfold Js.Math_round. apply Qfloor_le. Qed.

(** C7, as the code has it: with the page hidden the delay before the
    jitter is at least six intervals, whatever the failure count; the
    jitter then takes up to a tenth of it away, and the result is floored
    at 1000 ms.  So the scheduled delay is at least 1000 and at least
    5.4 intervals less half a millisecond. *)
Theorem hidden_delay_bounds (interval : Q) (failureCount : nat)
    (page : Page) :
  hidden page = true ->
  0 <= interval ->
  0 <= random page ->
  6 * interval <= unjittered interval failureCount (hidden page)
  /\ delay interval failureCount page
     == Js.Math_max 1000
          (unjittered interval failureCount (hidden page)
           + inject_Z (jitter (unjittered interval failureCount (hidden page))
                              (random page)))
  /\ 1000 <= delay interval failureCount page
  /\ (54 # 10) * interval - (1 # 2) <= delay interval failureCount page.
Proof.
  intros Hh Hi Hr.
  assert (U : 6 * interval <= unjittered interval failureCount (hidden page)).
  { unfold unjittered. rewrite Hh.
    eapply Qle_trans; [|apply Math_max_ge_r]. lra. }
  split; [exact U|].
  split; [reflexivity|].
  split; [apply Math_max_ge_l|].
  unfold delay.
  set (next := unjittered interval failureCount (hidden page)) in *.
  eapply Qle_trans; [|apply Math_max_ge_r].
  unfold jitter.
  pose proof (Math_round_ge (next * (random page * (2 # 10) - (1 # 10)))) as R.
  assert (P : 0 <= next * random page).
  { apply Qmult_le_0_compat; [lra|exact Hr]. }
  lra.
Qed.

Lemma hidden_delay_bounds_witness :
  1000 <= delay 10000 3 {| hidden := true; random := 1 # 4 |}.
Proof.
  apply (hidden_delay_bounds 10000 3 {| hidden := true; random := 1 # 4 |});
    [reflexivity | discriminate | discriminate].
Defined.

(** C7 as stated fails: with an interval of 10 s, no failure, the page
    hidden and [Math.random()] returning 0, the timer is set to 54 s,
    below six intervals. *)
Lemma hidden_delay_below_six_intervals :
  hidden {| hidden := true; random := 0 |} = true
  /\ delay 10000 0 {| hidden := true; random := 0 |} == 54000
  /\ ~ (6 * 10000 <= delay 10000 0 {| hidden := true; random := 0 |}).
Proof.
  split; [reflexivity|]. split; [reflexivity|].
  intros H. vm_compute in H. apply H. reflexivity.
Qed.

(** *** The disabled loop *)

Section Disabled.

Variable t : string -> list (string * Z) -> string.
Variable areArraysEqual : list string -> list string -> bool.
Variable Number : string -> Js.Number.

Lemma poll_run_without_loop (fs : DashboardFilters) (evs : list Event)
    (w : World) :
  poll_run t areArraysEqual Number fs None evs w = (Normal None, w).
Proof.
  induction evs as [|ev evs IH]; simpl; [reflexivity|].
  unfold bind. simpl. exact IH.
Qed.

(** Line 186 returns for every interval that is not above 0. *)
Lemma pollingEffect_guard (interval : Js.Number) (page : Page)
    (fs : DashboardFilters) (w : World) :
  Js.gt0 interval = false ->
  pollingEffect interval page fs w = (Normal None, w).
Proof.
  intros H. unfold pollingEffect.
  destruct interval as [|q]; simpl in *; [reflexivity|].
  apply negb_false_iff in H. rewrite H, orb_true_r. reflexivity.
Qed.

Lemma AUTO_REFRESH_MS_unset : AUTO_REFRESH_MS Number None = Js.Fin 0.
Proof. reflexivity. Qed.

End Disabled.

(** With a positive interval the effect does start: on a visible page the
    first attempt is in flight with its two requests out, on a hidden page
    a timer is pending. *)
Example polling_enabled_runs :
  (let r := polling t_of_key sameArrays Number_of_digits (Some "30000")
              {| hidden := false; random := 1 # 2 |} DEFAULT_FILTERS []
              initialWorld in
   (exists l, fst r = Normal (Some l) /\ phase (Some l) (snd r) = InFlight)
   /\ length (fetches (snd r)) = 2%nat /\ timers (snd r) = [])
  /\ (let r := polling t_of_key sameArrays Number_of_digits (Some "30000")
                 {| hidden := true; random := 1 # 2 |} DEFAULT_FILTERS []
                 initialWorld in
      (exists l, fst r = Normal (Some l) /\ phase (Some l) (snd r) = Scheduled)
      /\ fetches (snd r) = [] /\ length (timers (snd r)) = 1%nat).
Proof.
  split; (split; [eexists; split; reflexivity|split; reflexivity]).
Qed.

(** C9: with the interval unset, 0 or negative the polling effect returns
    at once and stays inert whatever happens later: no loop exists, the
    phase is [Idle], no timer is created and no request is issued. *)
Theorem polling_disabled_is_inert
    (t : string -> list (string * Z) -> string)
    (areArraysEqual : list string -> list string -> bool)
    (Number : string -> Js.Number)
    (VITE_AUTO_REFRESH_MS : option string) (page : Page)
    (fs : DashboardFilters) (evs : list Event) (w : World) :
  VITE_AUTO_REFRESH_MS = None
  \/ Js.gt0 (AUTO_REFRESH_MS Number VITE_AUTO_REFRESH_MS) = false ->
  let run := polling t areArraysEqual Number VITE_AUTO_REFRESH_MS page fs evs
  in
  settles run w = Normal None
  /\ exec run w = w
  /\ timers (exec run w) = timers w
  /\ pending (exec run w) = pending w
  /\ fetches (exec run w) = fetches w
  /\ phase None (exec run w) = Idle.
Proof.
  intros H run.
  assert (G : Js.gt0 (AUTO_REFRESH_MS Number VITE_AUTO_REFRESH_MS) = false).
  { destruct H as [-> | H]; [reflexivity|exact H]. }
  assert (R : run w = (Normal None, w)).
  { subst run. unfold polling, bind.
    rewrite (pollingEffect_guard _ page fs w G).
    apply poll_run_without_loop. }
  unfold settles, exec. rewrite R. simpl. repeat split.
Qed.

Lemma polling_disabled_is_inert_witness :
  exec (polling t_of_key sameArrays Number_of_digits (Some "0")
          {| hidden := false; random := 1 # 2 |} DEFAULT_FILTERS
          [TimerFires 1 {| hidden := false; random := 1 # 2 |}; CleanupRuns])
       initialWorld
  = initialWorld.
Proof.
  apply (polling_disabled_is_inert t_of_key sameArrays Number_of_digits
           (Some "0") {| hidden := false; random := 1 # 2 |} DEFAULT_FILTERS
           [TimerFires 1 {| hidden := false; random := 1 # 2 |}; CleanupRuns]
           initialWorld).
  right. reflexivity.
Defined.

(** The [catch] block of [attemptFetch] does count, were [Promise.all] ever
    rejected: k rejections in a row from 0 leave the counter at k, up to
    the cap of 6. *)
Lemma rejected_attempt_would_be_counted (interval : Q) (page : Page)
    (e : Js.Thrown) (p : PollRefs) (w : World) :
  exists p',
    settles (attemptFetch_settle interval page (Abrupt e) p) w = Normal p'
    /\ failureCountRef p' = Nat.min (failureCountRef p + 1) 6.
Proof.
  unfold settles, attemptFetch_settle, scheduleNext, bind, setTimeout, ret.
  simpl. destruct (cancelled p); simpl; eexists; split; reflexivity.
Qed.

(** * Further properties of the code *)

(** ** The service: HTTP errors and the endpoint configuration *)

Lemma request_rejects_http_error (T : Type) (Number : string -> Js.Number)
    (code : Z) (header : option string) (body : string)
    (parsed : Js.Thrown + T) :
  code <> 429%Z ->
  (code < 200 \/ 299 < code)%Z ->
  Coingecko.request Number
    (Coingecko.FetchResponded
       {| Coingecko.status := code; Coingecko.header_Retry_After := header;
          Coingecko.text := inr body; Coingecko.json := parsed |})
  = inl (Js.ThrownError
           (Coingecko.new_Error
              (if Js.nonempty body then body
               else ("CoinGecko request failed with status "
                       ++ Js.String_of_Z code)%string))).
Proof.
  intros H429 Hrange.
  unfold Coingecko.request, Coingecko.ok. simpl.
  destruct (code =? 429)%Z eqn:E; [apply Z.eqb_eq in E; contradiction|].
  assert (O : ((200 <=? code) && (code <=? 299))%Z = false).
  { apply andb_false_iff. destruct Hrange as [H|H].
    - left. apply Z.leb_gt. exact H.
    - right. apply Z.leb_gt. exact H. }
  rewrite O. reflexivity.
Qed.

Lemma http_error_message_nonempty (code : Z) (body : string) :
  Js.nonempty (if Js.nonempty body then body
               else ("CoinGecko request failed with status "
                       ++ Js.String_of_Z code)%string) = true.
Proof. destruct body; reflexivity. Qed.

(** X1: a response that is neither 2xx nor 429 and whose body can be read
    makes [request] reject with a plain [Error]; its message is the body,
    or, for an empty body, a text that ends in the status code; it is never
    empty. *)
Theorem request_http_error (T : Type) (Number : string -> Js.Number)
    (code : Z) (header : option string) (body : string)
    (parsed : Js.Thrown + T) :
  code <> 429%Z ->
  (code < 200 \/ 299 < code)%Z ->
  let msg := if Js.nonempty body then body
             else ("CoinGecko request failed with status "
                     ++ Js.String_of_Z code)%string in
  Coingecko.request Number
    (Coingecko.FetchResponded
       {| Coingecko.status := code; Coingecko.header_Retry_After := header;
          Coingecko.text := inr body; Coingecko.json := parsed |})
  = inl (Js.ThrownError (Coingecko.new_Error msg))
  /\ Js.nonempty msg = true
  /\ Js.instanceof (Js.ThrownError (Coingecko.new_Error msg))
       Js.ExportedRateLimitError = false.
Proof.
  intros H429 Hrange msg. subst msg.
  split; [now apply request_rejects_http_error|].
  split; [apply http_error_message_nonempty|reflexivity].
Qed.

Lemma request_http_error_witness :
  Coingecko.request Number_of_digits
    (Coingecko.FetchResponded
       {| Coingecko.status := 404; Coingecko.header_Retry_After := None;
          Coingecko.text := inr "";
          Coingecko.json := inr scenarioSnapshot |})
  = inl (Js.ThrownError
           (Coingecko.new_Error "CoinGecko request failed with status 404")).
Proof.
  apply (request_http_error (list CoinMarket) Number_of_digits 404 None ""
           (inr scenarioSnapshot)); [discriminate | right; reflexivity].
Defined.

(** X2: [request] is fulfilled on a 2xx response only, and then with the
    parsed body of that response; a 429, any other status and a rejected
    [fetch] all reject. *)
Theorem request_fulfils_on_2xx_only (T : Type)
    (Number : string -> Js.Number) (reply : Coingecko.Reply T) (v : T) :
  Coingecko.request Number reply = inr v ->
  exists r, reply = Coingecko.FetchResponded r
            /\ (200 <= Coingecko.status r <= 299)%Z
            /\ Coingecko.json r = inr v.
Proof.
  intros H. destruct reply as [e|r]; simpl in H; [discriminate|].
  exists r. split; [reflexivity|].
  destruct (Coingecko.status r =? 429)%Z; [discriminate|].
  destruct (Coingecko.ok r) eqn:O; simpl in H.
  - split; [|exact H]. unfold Coingecko.ok in O.
    apply andb_true_iff in O. destruct O as [A B].
    apply Z.leb_le in A. apply Z.leb_le in B. lia.
  - destruct (Coingecko.text r); discriminate.
Qed.

Lemma request_fulfils_on_2xx_only_witness :
  exists r, Coingecko.FetchResponded (ok_response scenarioSnapshot)
            = Coingecko.FetchResponded r
            /\ (200 <= Coingecko.status r <= 299)%Z
            /\ Coingecko.json r = inr scenarioSnapshot.
Proof.
  apply (request_fulfils_on_2xx_only (list CoinMarket) Number_of_digits
           (Coingecko.FetchResponded (ok_response scenarioSnapshot))
           scenarioSnapshot).
  reflexivity.
Defined.

(** X3: [Accept: application/json] is sent in every configuration.  The
    API key travels in a header only when a non-empty key is configured
    and the chosen base contains "pro-api"; it is never sent to the public
    endpoint nor to the development proxy. *)
Theorem api_key_header_only_for_pro (env : Endpoint.Env) :
  In ("Accept", "application/json") (Endpoint.defaultHeaders env)
  /\ forall key : string,
       In ("x-cg-pro-api-key", key) (Endpoint.defaultHeaders env) ->
       Endpoint.VITE_COINGECKO_API_KEY env = Some key
       /\ Js.nonempty key = true
       /\ Js.includes "pro-api" (Endpoint.API_BASE env) = true
       /\ Endpoint.API_BASE env <> "https://api.coingecko.com/api/v3"
       /\ Endpoint.API_BASE env <> "/api/coingecko".
Proof.
  split; [now left|]. intros key.
  unfold Endpoint.defaultHeaders, Endpoint.API_KEY, Endpoint.ENV_API_KEY,
    Endpoint.or_undefined.
  destruct (Endpoint.VITE_COINGECKO_API_KEY env) as [k|];
    [|simpl; intros [H|[]]; discriminate H].
  destruct (Js.nonempty k) eqn:N;
    [|simpl; intros [H|[]]; discriminate H].
  rewrite N.
  destruct (Js.includes "pro-api" (Endpoint.API_BASE env)) eqn:I;
    [|simpl; intros [H|[]]; discriminate H].
  simpl. intros [H|[H|[]]]; [discriminate H|]. injection H as <-.
  repeat split; try assumption; try reflexivity.
  - intros E. rewrite E in I. discriminate I.
  - intros E. rewrite E in I. discriminate I.
Qed.

Lemma api_key_header_only_for_pro_witness :
  Js.includes "pro-api"
    (Endpoint.API_BASE
       {| Endpoint.VITE_COINGECKO_API_KEY := Some "CG-demo";
          Endpoint.VITE_COINGECKO_API_ROOT := None;
          Endpoint.VITE_COINGECKO_USE_PRO_API := None;
          Endpoint.DEV := false |}) = true.
Proof.
  apply (proj2 (api_key_header_only_for_pro
                  {| Endpoint.VITE_COINGECKO_API_KEY := Some "CG-demo";
                     Endpoint.VITE_COINGECKO_API_ROOT := None;
                     Endpoint.VITE_COINGECKO_USE_PRO_API := None;
                     Endpoint.DEV := false |}) "CG-demo").
  right. left. reflexivity.
Defined.

Lemma or_undefined_nonempty (v : option string) (s : string) :
  Endpoint.or_undefined v = Some s -> Js.nonempty s = true.
Proof.
  destruct v as [x|]; simpl; [|discriminate].
  destruct (Js.nonempty x) eqn:N; [|discriminate].
  intros H. injection H as <-. exact N.
Qed.

Lemma or_undefined_unset (v : option string) :
  Endpoint.defined_nonempty v = false -> Endpoint.or_undefined v = None.
Proof.
  destruct v as [x|]; simpl; [|reflexivity]. now intros ->.
Qed.

Lemma or_undefined_set (key : string) :
  Js.nonempty key = true -> Endpoint.or_undefined (Some key) = Some key.
Proof. simpl. now intros ->. Qed.

(** X4: without a root override (unset or empty), the key header is sent
    exactly when a non-empty key is configured and the build is not a
    development build, and the base is then the pro endpoint; a
    development build always talks to the proxy.  The base is never the
    empty string, whatever the configuration. *)
Theorem endpoint_without_root_override (env : Endpoint.Env) :
  Js.nonempty (Endpoint.API_BASE env) = true
  /\ (Endpoint.defined_nonempty (Endpoint.VITE_COINGECKO_API_ROOT env) = false
      ->
      (Endpoint.DEV env = true ->
       Endpoint.API_BASE env = "/api/coingecko"
       /\ Endpoint.defaultHeaders env = [("Accept", "application/json")])
      /\ (Endpoint.DEV env = false ->
          forall key,
            Endpoint.VITE_COINGECKO_API_KEY env = Some key ->
            Js.nonempty key = true ->
            Endpoint.API_BASE env = "https://pro-api.coingecko.com/api/v3"
            /\ Endpoint.defaultHeaders env
               = [("Accept", "application/json");
                  ("x-cg-pro-api-key", key)])
      /\ (Endpoint.defined_nonempty (Endpoint.VITE_COINGECKO_API_KEY env)
          = false ->
          Endpoint.defaultHeaders env = [("Accept", "application/json")])).
Proof.
  split.
  - unfold Endpoint.API_BASE.
    destruct (Endpoint.ENV_API_ROOT env) as [root|] eqn:R.
    + exact (or_undefined_nonempty _ _ R).
    + destruct (Endpoint.DEV env), (Endpoint.ENV_USE_PRO env),
        (Endpoint.defined_nonempty (Endpoint.API_KEY env)); reflexivity.
  - intros R. apply or_undefined_unset in R.
    unfold Endpoint.defaultHeaders, Endpoint.API_BASE, Endpoint.ENV_API_ROOT,
      Endpoint.API_KEY, Endpoint.ENV_API_KEY.
    rewrite R. split; [|split].
    + intros ->. split; [reflexivity|].
      destruct (Endpoint.or_undefined (Endpoint.VITE_COINGECKO_API_KEY env))
        as [key|]; [|reflexivity].
      change (Js.includes "pro-api" "/api/coingecko") with false.
      now rewrite andb_false_r.
    + intros -> key -> K. rewrite (or_undefined_set key K). simpl.
      rewrite K.
      destruct (Endpoint.ENV_USE_PRO env); split; reflexivity.
    + intros K. now rewrite (or_undefined_unset _ K).
Qed.

(** ** The loaders: what a cycle writes *)

Section Loaders.

Variable t : string -> list (string * Z) -> string.
Variable areArraysEqual : list string -> list string -> bool.
Variable Number : string -> Js.Number.

(** The message the generic branch of a [catch] block shows. *)
Lemma report_failure_generic (fallback : string) (err : Js.Thrown) :
  Js.instanceof err Js.ExportedRateLimitError = false ->
  let msg := match err with
             | Js.ThrownError e => Js.message e
             | Js.ThrownOther rendering => rendering
             end in
  report_failure t fallback err
  = setError
      (Some (if Js.includes "Failed to fetch" msg
                || Js.includes "NetworkError" msg
             then "No se pudo conectar con CoinGecko. Revisa tu conexión o intenta de nuevo."
             else if Js.nonempty msg then msg else fallback)).
Proof.
  intros H msg. unfold report_failure. rewrite H. fold msg.
  destruct (Js.includes "Failed to fetch" msg || Js.includes "NetworkError" msg);
    reflexivity.
Qed.

(** The state a snapshot cycle leaves when its request fails and the signal
    is not aborted. *)
Lemma snapshot_failure_state (fs : DashboardFilters)
    (atCall atSettle : option AbortSignal) (now : Z)
    (reply : Coingecko.Reply (list CoinMarket)) (err : Js.Thrown)
    (msg : string) (w : World) :
  signal_aborted atSettle = false ->
  Coingecko.request Number reply = inl err ->
  report_failure t "Unexpected error while loading market data." err
  = setError (Some msg) ->
  dash (exec (loadMarketOverview t areArraysEqual Number fs atCall atSettle
                now reply) w)
  = {| filters := filters (dash w);
       availableCoins := availableCoins (dash w);
       selectedCoinMarkets := selectedCoinMarkets (dash w);
       chartData := chartData (dash w);
       loadingMarkets := false;
       loadingChart := loadingChart (dash w);
       error := Some msg;
       lastUpdated := lastUpdated (dash w) |}.
Proof.
  intros S R F.
  unfold loadMarketOverview, exec. rewrite R.
  unfold loadMarketOverview_settle, try_catch_finally, try_finally,
    try_catch, loadMarketOverview_call, bind, await, ret, throw.
  rewrite S, F. reflexivity.
Qed.

Lemma series_failure_state (fs : DashboardFilters)
    (atCall atSettle : option AbortSignal) (now : Z)
    (reply : Coingecko.Reply MarketChartResponse) (err : Js.Thrown)
    (msg : string) (w : World) :
  signal_aborted atSettle = false ->
  Coingecko.request Number reply = inl err ->
  report_failure t "Unexpected error while loading chart data." err
  = setError (Some msg) ->
  dash (exec (loadChart t Number fs atCall atSettle now reply) w)
  = {| filters := filters (dash w);
       availableCoins := availableCoins (dash w);
       selectedCoinMarkets := selectedCoinMarkets (dash w);
       chartData := chartData (dash w);
       loadingMarkets := loadingMarkets (dash w);
       loadingChart := false;
       error := Some msg;
       lastUpdated := lastUpdated (dash w) |}.
Proof.
  intros S R F.
  unfold loadChart, exec. rewrite R.
  unfold loadChart_settle, try_catch_finally, try_finally,
    try_catch, loadChart_call, bind, await, ret, throw.
  rewrite S, F. reflexivity.
Qed.

End Loaders.

Lemma generic_message_nonempty (msg fallback : string) :
  Js.nonempty fallback = true ->
  Js.nonempty
    (if Js.includes "Failed to fetch" msg || Js.includes "NetworkError" msg
     then "No se pudo conectar con CoinGecko. Revisa tu conexión o intenta de nuevo."
     else if Js.nonempty msg then msg else fallback) = true.
Proof.
  intros F.
  destruct (Js.includes "Failed to fetch" msg || Js.includes "NetworkError" msg);
    [reflexivity|].
  destruct (Js.nonempty msg) eqn:N; assumption.
Qed.

(** X5: a snapshot or series cycle whose request fails, with the signal not
    aborted, keeps all previously loaded data: filters, available coins,
    selected markets, chart data and the time of the last update stay as
    they were; only the loading flag of that cycle (reset to false) and the
    error (set to a message) change.  For an error that is not an instance
    of the exported [RateLimitError] the message is not empty. *)
Theorem failed_cycle_keeps_data
    (t : string -> list (string * Z) -> string)
    (areArraysEqual : list string -> list string -> bool)
    (Number : string -> Js.Number)
    (fs : DashboardFilters) (atCall atSettle : option AbortSignal) (now : Z)
    (marketsReply : Coingecko.Reply (list CoinMarket))
    (chartReply : Coingecko.Reply MarketChartResponse)
    (errM errC : Js.Thrown) (w : World) :
  signal_aborted atSettle = false ->
  Coingecko.request Number marketsReply = inl errM ->
  Coingecko.request Number chartReply = inl errC ->
  let d := dash w in
  let m := dash (exec (loadMarketOverview t areArraysEqual Number fs atCall
                         atSettle now marketsReply) w) in
  let c := dash (exec (loadChart t Number fs atCall atSettle now chartReply)
                   w) in
  (exists msg,
      m = {| filters := filters d; availableCoins := availableCoins d;
             selectedCoinMarkets := selectedCoinMarkets d;
             chartData := chartData d; loadingMarkets := false;
             loadingChart := loadingChart d; error := Some msg;
             lastUpdated := lastUpdated d |}
      /\ (Js.instanceof errM Js.ExportedRateLimitError = false ->
          Js.nonempty msg = true))
  /\ (exists msg,
         c = {| filters := filters d; availableCoins := availableCoins d;
                selectedCoinMarkets := selectedCoinMarkets d;
                chartData := chartData d;
                loadingMarkets := loadingMarkets d; loadingChart := false;
                error := Some msg; lastUpdated := lastUpdated d |}
         /\ (Js.instanceof errC Js.ExportedRateLimitError = false ->
             Js.nonempty msg = true)).
Proof.
  intros S RM RC d m c. split.
  - destruct (report_failure_is_setError t
                "Unexpected error while loading market data." errM)
      as [msg F].
    exists msg. split.
    + subst m d. now apply snapshot_failure_state with (err := errM).
    + intros I.
      pose proof (report_failure_generic t
                    "Unexpected error while loading market data." errM I)
        as G.
      simpl in G. rewrite F in G.
      apply (f_equal (fun f => error (dash (exec f initialWorld)))) in G.
      simpl in G. injection G as ->. now apply generic_message_nonempty.
  - destruct (report_failure_is_setError t
                "Unexpected error while loading chart data." errC)
      as [msg F].
    exists msg. split.
    + subst c d. now apply series_failure_state with (err := errC).
    + intros I.
      pose proof (report_failure_generic t
                    "Unexpected error while loading chart data." errC I)
        as G.
      simpl in G. rewrite F in G.
      apply (f_equal (fun f => error (dash (exec f initialWorld)))) in G.
      simpl in G. injection G as ->. now apply generic_message_nonempty.
Qed.

Lemma failed_cycle_keeps_data_witness :
  exists msg,
    dash (exec (loadMarketOverview t_of_key sameArrays Number_of_digits
                  scenarioFilters fresh_signal fresh_signal 1700000000
                  (Coingecko.FetchRejected
                     (Js.ThrownError
                        {| Js.ctor := Js.TypeErrorClass;
                           Js.name := "TypeError";
                           Js.message := "Failed to fetch";
                           Js.status := None; Js.retryAfter := None |})))
               scenarioWorld)
    = {| filters := scenarioFilters; availableCoins := [];
         selectedCoinMarkets := []; chartData := None;
         loadingMarkets := false; loadingChart := false;
         error := Some msg; lastUpdated := None |}.
Proof.
  destruct (failed_cycle_keeps_data t_of_key sameArrays Number_of_digits
              scenarioFilters fresh_signal fresh_signal 1700000000
              (Coingecko.FetchRejected
                 (Js.ThrownError
                    {| Js.ctor := Js.TypeErrorClass; Js.name := "TypeError";
                       Js.message := "Failed to fetch";
                       Js.status := None; Js.retryAfter := None |}))
              (Coingecko.FetchRejected abortError)
              (Js.ThrownError
                 {| Js.ctor := Js.TypeErrorClass; Js.name := "TypeError";
                    Js.message := "Failed to fetch";
                    Js.status := None; Js.retryAfter := None |})
              abortError scenarioWorld eq_refl eq_refl eq_refl)
    as [[msg [H _]] _].
  exists msg. exact H.
Defined.

(** X6: the text of an HTTP error reaches the user as it is.  When the
    snapshot or the series request is answered with a status that is
    neither 2xx nor 429, the error shown is the body of the response, or
    "CoinGecko request failed with status N" for an empty body; the hook's
    own fallback text is never used for such a response.  The one
    exception is a body that contains "Failed to fetch" or "NetworkError",
    which is shown as a connection problem. *)
Theorem http_error_is_shown_verbatim
    (t : string -> list (string * Z) -> string)
    (areArraysEqual : list string -> list string -> bool)
    (Number : string -> Js.Number)
    (fs : DashboardFilters) (atCall atSettle : option AbortSignal) (now : Z)
    (code : Z) (header : option string) (body : string)
    (parsedM : Js.Thrown + list CoinMarket)
    (parsedC : Js.Thrown + MarketChartResponse) (w : World) :
  signal_aborted atSettle = false ->
  code <> 429%Z ->
  (code < 200 \/ 299 < code)%Z ->
  let msg := if Js.nonempty body then body
             else ("CoinGecko request failed with status "
                     ++ Js.String_of_Z code)%string in
  let shown :=
    if Js.includes "Failed to fetch" msg || Js.includes "NetworkError" msg
    then "No se pudo conectar con CoinGecko. Revisa tu conexión o intenta de nuevo."
    else msg in
  error (dash (exec (loadMarketOverview t areArraysEqual Number fs atCall
                       atSettle now
                       (Coingecko.FetchResponded
                          {| Coingecko.status := code;
                             Coingecko.header_Retry_After := header;
                             Coingecko.text := inr body;
                             Coingecko.json := parsedM |})) w))
  = Some shown
  /\ error (dash (exec (loadChart t Number fs atCall atSettle now
                          (Coingecko.FetchResponded
                             {| Coingecko.status := code;
                                Coingecko.header_Retry_After := header;
                                Coingecko.text := inr body;
                                Coingecko.json := parsedC |})) w))
     = Some shown.
Proof.
  intros S H429 Hrange msg shown.
  pose proof (request_rejects_http_error (list CoinMarket) Number code header
                body parsedM H429 Hrange) as RM.
  pose proof (request_rejects_http_error MarketChartResponse Number code
                header body parsedC H429 Hrange) as RC.
  pose proof (http_error_message_nonempty code body) as N.
  fold msg in RM, RC, N.
  assert (I : Js.instanceof (Js.ThrownError (Coingecko.new_Error msg))
                Js.ExportedRateLimitError = false) by reflexivity.
  assert (Sh : forall fallback,
             (if Js.includes "Failed to fetch" msg
                 || Js.includes "NetworkError" msg
              then "No se pudo conectar con CoinGecko. Revisa tu conexión o intenta de nuevo."
              else if Js.nonempty msg then msg else fallback) = shown).
  { intros fallback. subst shown. now rewrite N. }
  split.
  - rewrite (snapshot_failure_state t areArraysEqual Number fs atCall
               atSettle now _ _ shown w S RM).
    + reflexivity.
    + rewrite (report_failure_generic t _ _ I). simpl. now rewrite Sh.
  - rewrite (series_failure_state t Number fs atCall atSettle now _ _ shown
               w S RC).
    + reflexivity.
    + rewrite (report_failure_generic t _ _ I). simpl. now rewrite Sh.
Qed.

Lemma http_error_is_shown_verbatim_witness :
  error (dash (exec (loadMarketOverview t_of_key sameArrays Number_of_digits
                       scenarioFilters fresh_signal fresh_signal 1700000000
                       (Coingecko.FetchResponded
                          {| Coingecko.status := 503;
                             Coingecko.header_Retry_After := None;
                             Coingecko.text := inr "";
                             Coingecko.json := inr [] |})) scenarioWorld))
  = Some "CoinGecko request failed with status 503".
Proof.
  apply (http_error_is_shown_verbatim t_of_key sameArrays Number_of_digits
           scenarioFilters fresh_signal fresh_signal 1700000000 503 None ""
           (inr []) (inr (mkMarketChartResponse [] [] [])) scenarioWorld);
    [reflexivity | discriminate | right; reflexivity].
Defined.

(** X7: a series cycle that succeeds, with the signal not aborted, replaces
    the chart data by the new series as a whole, clears the error (also
    one that a snapshot cycle has set), stamps the time and resets
    [loadingChart]; the filters and everything the snapshot cycle owns are
    left as they were. *)
Theorem successful_series_effect
    (t : string -> list (string * Z) -> string)
    (Number : string -> Js.Number)
    (fs : DashboardFilters) (atCall atSettle : option AbortSignal) (now : Z)
    (r : Coingecko.Response MarketChartResponse)
    (data : MarketChartResponse) (w : World) :
  Coingecko.ok r = true ->
  Coingecko.json r = inr data ->
  signal_aborted atSettle = false ->
  dash (exec (loadChart t Number fs atCall atSettle now
                (Coingecko.FetchResponded r)) w)
  = {| filters := filters (dash w);
       availableCoins := availableCoins (dash w);
       selectedCoinMarkets := selectedCoinMarkets (dash w);
       chartData := Some data;
       loadingMarkets := loadingMarkets (dash w);
       loadingChart := false;
       error := None;
       lastUpdated := Some now |}.
Proof.
  intros Hok Hjson Hsig.
  unfold loadChart, exec. rewrite (request_ok Number r Hok), Hjson.
  unfold loadChart_settle, try_catch_finally, try_finally, try_catch,
    loadChart_call, bind, await, ret.
  rewrite Hsig. reflexivity.
Qed.

Lemma successful_series_effect_witness :
  chartData
    (dash (exec (loadChart t_of_key Number_of_digits scenarioFilters
                   fresh_signal fresh_signal 1700000000
                   (Coingecko.FetchResponded
                      (ok_response
                         (mkMarketChartResponse [(1, 2)] [] []))))
                scenarioWorld))
  = Some (mkMarketChartResponse [(1, 2)] [] []).
Proof.
  rewrite (successful_series_effect t_of_key Number_of_digits scenarioFilters
             fresh_signal fresh_signal 1700000000
             (ok_response (mkMarketChartResponse [(1, 2)] [] []))
             (mkMarketChartResponse [(1, 2)] [] []) scenarioWorld
             eq_refl eq_refl eq_refl).
  reflexivity.
Defined.

(** X8: a successful snapshot cycle touches the selection and the primary
    coin only: the currency and the time range of the filters, the chart
    data and [loadingChart] are as before, whatever filters the closure
    had captured; the list of available coins is the new snapshot, the
    error is cleared, the time stamped and [loadingMarkets] reset. *)
Theorem successful_snapshot_effect
    (t : string -> list (string * Z) -> string)
    (areArraysEqual : list string -> list string -> bool)
    (Number : string -> Js.Number)
    (fs : DashboardFilters) (atCall atSettle : option AbortSignal) (now : Z)
    (r : Coingecko.Response (list CoinMarket)) (data : list CoinMarket)
    (w : World) :
  Coingecko.ok r = true ->
  Coingecko.json r = inr data ->
  signal_aborted atSettle = false ->
  let d := dash w in
  let d' := dash (exec (loadMarketOverview t areArraysEqual Number fs atCall
                          atSettle now (Coingecko.FetchResponded r)) w) in
  vsCurrency (filters d') = vsCurrency (filters d)
  /\ timeRange (filters d') = timeRange (filters d)
  /\ chartData d' = chartData d
  /\ loadingChart d' = loadingChart d
  /\ availableCoins d' = data
  /\ error d' = None
  /\ lastUpdated d' = Some now
  /\ loadingMarkets d' = false
  /\ fetches (exec (loadMarketOverview t areArraysEqual Number fs atCall
                      atSettle now (Coingecko.FetchResponded r)) w)
     = fetches w ++ [(Coingecko.getTopMarkets (vsCurrency fs) 50, atCall)].
Proof.
  intros Hok Hjson Hsig d d'. subst d d'.
  rewrite (snapshot_success_state t areArraysEqual Number fs atCall atSettle
             now r data w Hok Hjson Hsig).
  simpl.
  repeat split;
    try (destruct (negb (areArraysEqual (filtered fs data) (selectedCoins fs))
                   || negb (nextPrimary fs data =? primaryCoin fs)%string);
         reflexivity).
  unfold loadMarketOverview, exec. rewrite (request_ok Number r Hok), Hjson.
  unfold loadMarketOverview_settle, try_catch_finally, try_finally, try_catch,
    loadMarketOverview_call, bind, await, ret.
  rewrite Hsig. simpl.
  destruct (negb (areArraysEqual (filtered fs data) (selectedCoins fs))
            || negb (nextPrimary fs data =? primaryCoin fs)%string);
    reflexivity.
Qed.

Lemma successful_snapshot_effect_witness :
  availableCoins
    (dash (exec (loadMarketOverview t_of_key sameArrays Number_of_digits
                   scenarioFilters fresh_signal fresh_signal 1700000000
                   (Coingecko.FetchResponded (ok_response scenarioSnapshot)))
                scenarioWorld))
  = scenarioSnapshot.
Proof.
  apply (successful_snapshot_effect t_of_key sameArrays Number_of_digits
           scenarioFilters fresh_signal fresh_signal 1700000000
           (ok_response scenarioSnapshot) scenarioSnapshot scenarioWorld);
    reflexivity.
Defined.

(** ** Reconciliation, further *)

Lemma filter_idem {A} (f : A -> bool) (l : list A) :
  filter f (filter f l) = filter f l.
Proof.
  induction l as [|a l IH]; simpl; [reflexivity|].
  destruct (f a) eqn:E; simpl; [rewrite E; now f_equal|exact IH].
Qed.

Lemma filter_all {A} (f : A -> bool) (l : list A) :
  Forall (fun a => f a = true) l -> filter f l = l.
Proof.
  induction 1 as [|a l Ha _ IH]; simpl; [reflexivity|].
  rewrite Ha. now f_equal.
Qed.

Lemma NoDup_filter {A} (f : A -> bool) (l : list A) :
  NoDup l -> NoDup (filter f l).
Proof.
  induction 1 as [|a l Hn _ IH]; simpl; [constructor|].
  destruct (f a); [|exact IH].
  constructor; [|exact IH]. intros H. apply filter_In in H. tauto.
Qed.

(** The filters a reconciliation computes. *)
Lemma reconciled_fixpoint (fs : DashboardFilters) (data : list CoinMarket) :
  let fs' := {| vsCurrency := vsCurrency fs; timeRange := timeRange fs;
                selectedCoins := filtered fs data;
                primaryCoin := nextPrimary fs data |} in
  filtered fs' data = selectedCoins fs'
  /\ nextPrimary fs' data = primaryCoin fs'.
Proof.
  intros fs'.
  assert (F : filtered fs' data = filtered fs data).
  { unfold filtered at 1. simpl. unfold filtered. apply filter_idem. }
  split; [exact F|].
  unfold nextPrimary at 1. rewrite F. simpl.
  destruct (Array_includes (filtered fs data) (nextPrimary fs data)) eqn:E;
    [reflexivity|].
  destruct (nextPrimary_valid fs data) as [H|H].
  - unfold nextPrimary in *.
    destruct (Array_includes (filtered fs data) (primaryCoin fs)) eqn:E2.
    + rewrite E2 in E. discriminate E.
    + destruct (filtered fs data) as [|x rest]; [reflexivity|].
      simpl in E. rewrite String.eqb_refl in E. discriminate E.
  - apply Array_includes_In in H. rewrite H in E. discriminate E.
Qed.

(** X9: reconciliation is idempotent for cycles whose closure is current.
    A second successful snapshot cycle against the same snapshot, started
    from the state the first one left and with a closure that is current
    there, changes neither the filters nor the selected markets nor the
    available coins. *)
Theorem reconciliation_is_idempotent
    (t : string -> list (string * Z) -> string)
    (Number : string -> Js.Number) (fs fs' : DashboardFilters)
    (atCall atSettle : option AbortSignal) (now now' : Z)
    (r : Coingecko.Response (list CoinMarket)) (data : list CoinMarket)
    (w : World) :
  closure_current fs w ->
  Coingecko.ok r = true ->
  Coingecko.json r = inr data ->
  signal_aborted atSettle = false ->
  let w1 := exec (loadMarketOverview t Utils.areArraysEqual Number fs atCall
                    atSettle now (Coingecko.FetchResponded r)) w in
  closure_current fs' w1 ->
  let w2 := exec (loadMarketOverview t Utils.areArraysEqual Number fs' atCall
                    atSettle now' (Coingecko.FetchResponded r)) w1 in
  filters (dash w2) = filters (dash w1)
  /\ selectedCoinMarkets (dash w2) = selectedCoinMarkets (dash w1)
  /\ availableCoins (dash w2) = availableCoins (dash w1).
Proof.
  intros Hc Hok Hjson Hsig w1 Hc' w2.
  pose proof (current_reconciled_filters t Number fs atCall atSettle now r
                data w Hc Hok Hjson Hsig) as F1.
  fold w1 in F1.
  pose proof (current_reconciled_filters t Number fs' atCall atSettle now' r
                data w1 Hc' Hok Hjson Hsig) as F2.
  fold w2 in F2.
  destruct (reconciled_fixpoint (filters (dash w)) data) as [A B].
  rewrite <- F1 in A, B.
  split; [|split].
  - rewrite F2, A, B. destruct (filters (dash w1)); reflexivity.
  - subst w2.
    rewrite (snapshot_success_state t Utils.areArraysEqual Number fs' atCall
               atSettle now' r data w1 Hok Hjson Hsig).
    simpl. rewrite (filtered_ext fs' (filters (dash w1)) data (proj1 Hc')), A.
    subst w1.
    rewrite (snapshot_success_state t Utils.areArraysEqual Number fs atCall
               atSettle now r data w Hok Hjson Hsig) at 2.
    simpl. rewrite F1. simpl.
    now rewrite (filtered_ext fs (filters (dash w)) data (proj1 Hc)).
  - subst w2 w1.
    rewrite !(snapshot_success_state t Utils.areArraysEqual Number _ atCall
                atSettle _ r data _ Hok Hjson Hsig).
    reflexivity.
Qed.

Lemma reconciliation_is_idempotent_witness :
  filters
    (dash (exec (loadMarketOverview t_of_key Utils.areArraysEqual
                   Number_of_digits
                   {| vsCurrency := "usd"; timeRange := 30;
                      selectedCoins := ["bitcoin"];
                      primaryCoin := "bitcoin" |}
                   fresh_signal fresh_signal 1700000060
                   (Coingecko.FetchResponded (ok_response scenarioSnapshot)))
                (exec (loadMarketOverview t_of_key Utils.areArraysEqual
                         Number_of_digits scenarioFilters
                         fresh_signal fresh_signal 1700000000
                         (Coingecko.FetchResponded
                            (ok_response scenarioSnapshot)))
                      scenarioWorld)))
  = {| vsCurrency := "usd"; timeRange := 30; selectedCoins := ["bitcoin"];
       primaryCoin := "bitcoin" |}.
Proof.
  refine (eq_trans
            (proj1 (reconciliation_is_idempotent t_of_key Number_of_digits
                      scenarioFilters
                      {| vsCurrency := "usd"; timeRange := 30;
                         selectedCoins := ["bitcoin"];
                         primaryCoin := "bitcoin" |}
                      fresh_signal fresh_signal 1700000000
                      1700000060 (ok_response scenarioSnapshot)
                      scenarioSnapshot scenarioWorld (conj eq_refl eq_refl)
                      eq_refl eq_refl eq_refl (conj eq_refl eq_refl))) _).
  reflexivity.
Defined.

(** X10: for a cycle whose closure is current, a snapshot that still lists
    every selected coin leaves valid filters alone: when every selected id
    occurs in the snapshot and the primary coin is one of the selected,
    the filters after the cycle are the filters before it. *)
Theorem reconciliation_keeps_valid_filters
    (t : string -> list (string * Z) -> string)
    (Number : string -> Js.Number) (fs : DashboardFilters)
    (atCall atSettle : option AbortSignal) (now : Z)
    (r : Coingecko.Response (list CoinMarket)) (data : list CoinMarket)
    (w : World) :
  closure_current fs w ->
  Coingecko.ok r = true ->
  Coingecko.json r = inr data ->
  signal_aborted atSettle = false ->
  Forall (fun coinId => In coinId (map id data))
         (selectedCoins (filters (dash w))) ->
  In (primaryCoin (filters (dash w))) (selectedCoins (filters (dash w))) ->
  filters (dash (exec (loadMarketOverview t Utils.areArraysEqual Number fs
                         atCall atSettle now (Coingecko.FetchResponded r))
                      w))
  = filters (dash w).
Proof.
  intros Hc Hok Hjson Hsig Hall Hprim.
  rewrite (current_reconciled_filters t Number fs atCall atSettle now r data
             w Hc Hok Hjson Hsig).
  assert (F : filtered (filters (dash w)) data
              = selectedCoins (filters (dash w))).
  { unfold filtered. apply filter_all.
    eapply Forall_impl; [|exact Hall]. intros x Hx.
    now apply existsb_id_In. }
  assert (P : nextPrimary (filters (dash w)) data
              = primaryCoin (filters (dash w))).
  { unfold nextPrimary. rewrite F.
    apply Array_includes_In in Hprim. now rewrite Hprim. }
  rewrite F, P. destruct (filters (dash w)); reflexivity.
Qed.

Lemma reconciliation_keeps_valid_filters_witness :
  filters
    (dash (exec (loadMarketOverview t_of_key Utils.areArraysEqual
                   Number_of_digits scenarioFilters fresh_signal fresh_signal
                   1700000000
                   (Coingecko.FetchResponded
                      (ok_response
                         [row "solana"; row "ethereum"; row "bitcoin"])))
                scenarioWorld))
  = filters (dash scenarioWorld).
Proof.
  apply (reconciliation_keeps_valid_filters t_of_key Number_of_digits
           scenarioFilters fresh_signal fresh_signal 1700000000
           (ok_response [row "solana"; row "ethereum"; row "bitcoin"])
           [row "solana"; row "ethereum"; row "bitcoin"] scenarioWorld
           (conj eq_refl eq_refl) eq_refl eq_refl eq_refl).
  - repeat constructor; simpl; tauto.
  - simpl. tauto.
Defined.

(** X11: a successful snapshot cycle whose closure is current gives every
    non-empty selection a primary coin, also when none had been chosen:
    provided the empty string is not itself a selected id, the primary
    coin is empty after the cycle exactly when no selected coin is left. *)
Theorem primary_empty_iff_selection_empty
    (t : string -> list (string * Z) -> string)
    (Number : string -> Js.Number) (fs : DashboardFilters)
    (atCall atSettle : option AbortSignal) (now : Z)
    (r : Coingecko.Response (list CoinMarket)) (data : list CoinMarket)
    (w : World) :
  closure_current fs w ->
  Coingecko.ok r = true ->
  Coingecko.json r = inr data ->
  signal_aborted atSettle = false ->
  ~ In "" (selectedCoins (filters (dash w))) ->
  let fs' := filters (dash (exec (loadMarketOverview t Utils.areArraysEqual
                                    Number fs atCall atSettle now
                                    (Coingecko.FetchResponded r)) w)) in
  primaryCoin fs' = "" <-> selectedCoins fs' = [].
Proof.
  intros Hc Hok Hjson Hsig Hno fs'. subst fs'.
  rewrite (current_reconciled_filters t Number fs atCall atSettle now r data
             w Hc Hok Hjson Hsig).
  simpl.
  assert (Hno' : ~ In "" (filtered (filters (dash w)) data)).
  { intros H. apply filtered_In in H. tauto. }
  unfold nextPrimary.
  destruct (Array_includes (filtered (filters (dash w)) data)
              (primaryCoin (filters (dash w)))) eqn:E.
  - apply Array_includes_In in E. split.
    + intros P. rewrite P in E. contradiction.
    + intros N. rewrite N in E. destruct E.
  - destruct (filtered (filters (dash w)) data) as [|x rest].
    + tauto.
    + split; [|discriminate]. intros ->. exfalso. apply Hno'. now left.
Qed.

Lemma primary_empty_iff_selection_empty_witness :
  primaryCoin
    (filters (dash (exec (loadMarketOverview t_of_key Utils.areArraysEqual
                            Number_of_digits scenarioFilters
                            fresh_signal fresh_signal 1700000000
                            (Coingecko.FetchResponded
                               (ok_response [row "cardano"])))
                         scenarioWorld))) = "".
Proof.
  apply (primary_empty_iff_selection_empty t_of_key Number_of_digits
           scenarioFilters fresh_signal fresh_signal 1700000000
           (ok_response [row "cardano"]) [row "cardano"] scenarioWorld
           (conj eq_refl eq_refl) eq_refl eq_refl eq_refl).
  - simpl. intros [H|[H|[H|[]]]]; discriminate H.
  - reflexivity.
Defined.

(** X12: a successful snapshot cycle whose closure is current never grows
    the selection and keeps it free of duplicates; from a selection
    without duplicates it establishes the invariant of the filters (no id
    twice, primary coin empty or selected), even when the primary coin was
    not valid before. *)
Theorem reconciliation_establishes_invariant
    (t : string -> list (string * Z) -> string)
    (Number : string -> Js.Number) (fs : DashboardFilters)
    (atCall atSettle : option AbortSignal) (now : Z)
    (r : Coingecko.Response (list CoinMarket)) (data : list CoinMarket)
    (w : World) :
  closure_current fs w ->
  Coingecko.ok r = true ->
  Coingecko.json r = inr data ->
  signal_aborted atSettle = false ->
  NoDup (selectedCoins (filters (dash w))) ->
  let fs' := filters (dash (exec (loadMarketOverview t Utils.areArraysEqual
                                    Number fs atCall atSettle now
                                    (Coingecko.FetchResponded r)) w)) in
  filters_wf fs'
  /\ (length (selectedCoins fs') <= length (selectedCoins (filters (dash w))))%nat.
Proof.
  intros Hc Hok Hjson Hsig Hnd fs'. subst fs'.
  rewrite (current_reconciled_filters t Number fs atCall atSettle now r data
             w Hc Hok Hjson Hsig).
  unfold filters_wf. simpl. split; [split|].
  - unfold filtered. now apply NoDup_filter.
  - apply nextPrimary_valid.
  - unfold filtered. apply filter_length_le.
Qed.

Lemma reconciliation_establishes_invariant_witness :
  filters_wf
    (filters (dash (exec (loadMarketOverview t_of_key Utils.areArraysEqual
                            Number_of_digits scenarioFilters
                            fresh_signal fresh_signal 1700000000
                            (Coingecko.FetchResponded
                               (ok_response scenarioSnapshot)))
                         scenarioWorld))).
Proof.
  apply (reconciliation_establishes_invariant t_of_key Number_of_digits
           scenarioFilters fresh_signal fresh_signal 1700000000
           (ok_response scenarioSnapshot) scenarioSnapshot scenarioWorld
           (conj eq_refl eq_refl) eq_refl eq_refl eq_refl).
  simpl. repeat constructor; simpl; intuition discriminate.
Defined.

Lemma find_id_in_projection (sel : list string) (data : list CoinMarket)
    (p : string) :
  In p sel ->
  In p (map id data) ->
  exists c, find (fun coin => (id coin =? p)%string) (projection sel data)
            = Some c
            /\ id c = p /\ In c data.
Proof.
  intros Hsel Hdata.
  assert (Hex : exists c0, In c0 (projection sel data) /\ id c0 = p).
  { unfold projection. induction sel as [|x sel IH]; [destruct Hsel|].
    simpl. destruct Hsel as [->|Hsel].
    - apply existsb_id_In in Hdata.
      destruct (find (fun coin => (id coin =? p)%string) data) as [c|] eqn:F.
      + exists c. split; [now left|].
        apply find_some in F. now apply String.eqb_eq.
      + apply existsb_exists in Hdata. destruct Hdata as [c [Hin Hc]].
        now rewrite (find_none _ _ F c Hin) in Hc.
    - destruct (IH Hsel) as [c0 [Hin Hid]]. exists c0. split; [|exact Hid].
      destruct (find (fun coin => (id coin =? x)%string) data);
        [now right|exact Hin]. }
  destruct Hex as [c0 [Hin Hid]].
  destruct (find (fun coin => (id coin =? p)%string) (projection sel data))
    as [c|] eqn:F.
  - exists c. split; [reflexivity|].
    apply find_some in F. destruct F as [Hc Hidc].
    split; [now apply String.eqb_eq|].
    pose proof (projection_entries sel data) as P.
    rewrite Forall_forall in P. now apply P.
  - exfalso. pose proof (find_none _ _ F c0 Hin) as N. simpl in N.
    rewrite Hid, String.eqb_refl in N. discriminate N.
Qed.

(** X13: after a successful snapshot cycle whose closure is current the
    application finds the row of the primary coin: whenever the primary
    coin is not empty, the row [App] shows for it is a row of the new
    snapshot with that id. *)
Theorem primary_row_is_found
    (t : string -> list (string * Z) -> string)
    (Number : string -> Js.Number) (fs : DashboardFilters)
    (atCall atSettle : option AbortSignal) (now : Z)
    (r : Coingecko.Response (list CoinMarket)) (data : list CoinMarket)
    (w : World) :
  closure_current fs w ->
  Coingecko.ok r = true ->
  Coingecko.json r = inr data ->
  signal_aborted atSettle = false ->
  let d' := dash (exec (loadMarketOverview t Utils.areArraysEqual Number
                          fs atCall atSettle now
                          (Coingecko.FetchResponded r)) w) in
  primaryCoin (filters d') <> "" ->
  exists c, App.primaryCoinMarket d' = Some c
            /\ id c = primaryCoin (filters d')
            /\ In c data.
Proof.
  intros Hc Hok Hjson Hsig d' Hne.
  pose proof (current_reconciled_filters t Number fs atCall atSettle now r
                data w Hc Hok Hjson Hsig) as F.
  fold d' in F.
  assert (M : selectedCoinMarkets d'
              = projection (filtered (filters (dash w)) data) data).
  { subst d'.
    rewrite (snapshot_success_state t Utils.areArraysEqual Number fs atCall
               atSettle now r data w Hok Hjson Hsig).
    simpl. now rewrite (filtered_ext fs (filters (dash w)) data (proj1 Hc)). }
  unfold App.primaryCoinMarket. rewrite M, F. simpl.
  rewrite F in Hne. simpl in Hne.
  destruct (nextPrimary_valid (filters (dash w)) data) as [E|Hin];
    [contradiction|].
  destruct (find_id_in_projection (filtered (filters (dash w)) data) data
              (nextPrimary (filters (dash w)) data) Hin) as [c [Fc [Hid Hc']]].
  { apply filtered_In in Hin. tauto. }
  exists c. rewrite Fc. tauto.
Qed.

Lemma primary_row_is_found_witness :
  exists c,
    App.primaryCoinMarket
      (dash (exec (loadMarketOverview t_of_key Utils.areArraysEqual
                     Number_of_digits scenarioFilters fresh_signal
                     fresh_signal 1700000000
                     (Coingecko.FetchResponded
                        (ok_response scenarioSnapshot)))
                  scenarioWorld)) = Some c
    /\ id c = "bitcoin" /\ In c scenarioSnapshot.
Proof.
  apply (primary_row_is_found t_of_key Number_of_digits scenarioFilters
           fresh_signal fresh_signal 1700000000
           (ok_response scenarioSnapshot) scenarioSnapshot scenarioWorld
           (conj eq_refl eq_refl) eq_refl eq_refl eq_refl).
  discriminate.
Defined.

(** ** The filter panel *)

Lemma remaining_In (coinId x : string) (sel : list string) :
  In x (filter (fun i => negb (i =? coinId)%string) sel)
  <-> In x sel /\ x <> coinId.
Proof.
  rewrite filter_In. split; intros [H1 H2]; split; try assumption.
  - intros ->. rewrite String.eqb_refl in H2. discriminate H2.
  - apply negb_true_iff. now apply String.eqb_neq.
Qed.

Lemma remaining_absent (coinId : string) (sel : list string) :
  ~ In coinId sel ->
  filter (fun i => negb (i =? coinId)%string) sel = sel.
Proof.
  intros H. apply filter_all. apply Forall_forall. intros x Hx.
  apply negb_true_iff, String.eqb_neq. intros ->. contradiction.
Qed.

Lemma remaining_length (coinId : string) (sel : list string) :
  NoDup sel -> In coinId sel ->
  S (length (filter (fun i => negb (i =? coinId)%string) sel)) = length sel.
Proof.
  induction 1 as [|a l Hn Hnd IH]; intros Hin; [destruct Hin|].
  simpl. destruct (a =? coinId)%string eqn:E; simpl.
  - apply String.eqb_eq in E. subst a.
    now rewrite remaining_absent.
  - f_equal. apply IH. destruct Hin as [->|Hin]; [|exact Hin].
    rewrite String.eqb_refl in E. discriminate E.
Qed.

(** X14: the selection limit.  A click on a coin never takes a selection
    of at most five coins above five and adds at most one coin; on a
    selection without duplicate ids it removes at most one (an id that is
    selected twice is removed in all its places).  With five coins
    selected, a click on a sixth changes nothing and announces the
    limit. *)
Theorem toggle_respects_limit (availableCoins : list CoinMarket)
    (coinId : string) (prev : DashboardFilters) :
  (length (selectedCoins prev) <= FilterPanel.MAX_SELECTION)%nat ->
  let next := FilterPanel.toggle availableCoins coinId prev in
  (length (selectedCoins next) <= FilterPanel.MAX_SELECTION)%nat
  /\ (length (selectedCoins next) <= S (length (selectedCoins prev)))%nat
  /\ (NoDup (selectedCoins prev) ->
      (length (selectedCoins prev) <= S (length (selectedCoins next)))%nat)
  /\ (length (selectedCoins prev) = FilterPanel.MAX_SELECTION ->
      ~ In coinId (selectedCoins prev) ->
      FilterPanel.handleCoinToggle availableCoins coinId prev
      = (prev, FilterPanel.selectionLimitReached 5)).
Proof.
  intros H next. subst next.
  unfold FilterPanel.toggle, FilterPanel.handleCoinToggle,
    FilterPanel.MAX_SELECTION in *.
  destruct (Array_includes (selectedCoins prev) coinId) eqn:I.
  - apply Array_includes_In in I.
    destruct (length (selectedCoins prev) =? 1)%nat; simpl.
    + split; [lia|]. split; [lia|]. split; [intros _; lia|].
      intros _ N. contradiction.
    + pose proof (filter_length_le (fun i => negb (i =? coinId)%string)
                    (selectedCoins prev)).
      split; [lia|]. split; [lia|]. split.
      * intros Hnd.
        pose proof (remaining_length coinId (selectedCoins prev) Hnd I).
        lia.
      * intros _ N. contradiction.
  - destruct (5 <=? length (selectedCoins prev))%nat eqn:L; simpl.
    + split; [lia|]. split; [lia|]. split; [intros _; lia|]. reflexivity.
    + apply Nat.leb_gt in L. rewrite length_app. simpl.
      split; [lia|]. split; [lia|]. split; [intros _; lia|]. intros E. lia.
Qed.

Lemma toggle_respects_limit_witness :
  FilterPanel.handleCoinToggle scenarioSnapshot "avalanche" fiveSelected
  = (fiveSelected, FilterPanel.selectionLimitReached 5).
Proof.
  refine (proj2 (proj2 (proj2 (toggle_respects_limit scenarioSnapshot
                                 "avalanche" fiveSelected _))) eq_refl _).
  - unfold FilterPanel.MAX_SELECTION. simpl. lia.
  - simpl. intros [H|[H|[H|[H|[H|[]]]]]]; discriminate H.
Defined.

(** X15: a click on a coin, applied through [setFilters], keeps the
    invariant of the filters (no id twice, primary coin empty or
    selected), never empties a selection that had a coin, and touches
    nothing but the filters. *)
Theorem toggle_keeps_invariant (availableCoins : list CoinMarket)
    (coinId : string) (w : World) :
  filters_wf (filters (dash w)) ->
  let w' := exec (setFilters (FilterPanel.toggle availableCoins coinId)) w in
  filters_wf (filters (dash w'))
  /\ (selectedCoins (filters (dash w)) <> [] ->
      selectedCoins (filters (dash w')) <> [])
  /\ vsCurrency (filters (dash w')) = vsCurrency (filters (dash w))
  /\ timeRange (filters (dash w')) = timeRange (filters (dash w))
  /\ fetches w' = fetches w
  /\ error (dash w') = error (dash w)
  /\ chartData (dash w') = chartData (dash w).
Proof.
  intros [Hnd Hp] w'. subst w'. unfold exec, setFilters, setFiltersState,
    modify_dash. simpl.
  set (prev := filters (dash w)) in *.
  unfold FilterPanel.toggle, FilterPanel.handleCoinToggle, filters_wf.
  destruct (Array_includes (selectedCoins prev) coinId) eqn:I.
  - apply Array_includes_In in I.
    destruct (length (selectedCoins prev) =? 1)%nat eqn:L; simpl.
    + repeat split; tauto.
    + pose proof (remaining_length coinId (selectedCoins prev) Hnd I) as RL.
      apply Nat.eqb_neq in L.
      set (remaining := filter (fun i => negb (i =? coinId)%string)
                               (selectedCoins prev)) in *.
      assert (Rne : remaining <> []).
      { intros E. rewrite E in RL. simpl in RL.
        destruct (selectedCoins prev) as [|a [|b l]]; simpl in *;
          try lia; try contradiction. }
      repeat split; try reflexivity.
      * subst remaining. now apply NoDup_filter.
      * right.
        destruct (Array_includes remaining (primaryCoin prev)) eqn:E.
        -- now apply Array_includes_In.
        -- destruct remaining as [|x rest]; [contradiction|]. simpl. now left.
      * intros _. exact Rne.
  - destruct (FilterPanel.MAX_SELECTION <=? length (selectedCoins prev))%nat;
      simpl.
    + repeat split; tauto.
    + repeat split; try reflexivity.
      * apply NoDup_app; [exact Hnd|repeat constructor; intros []|].
        intros x Hx [<-|[]].
        apply Array_includes_In in Hx. rewrite Hx in I. discriminate I.
      * destruct Hp as [Hp|Hp]; [now left|right].
        apply in_or_app. now left.
      * intros _ E. apply app_eq_nil in E. destruct E as [_ E].
        discriminate E.
Qed.

Lemma scenarioFilters_wf : filters_wf scenarioFilters.
Proof.
  split; [|right; simpl; tauto].
  repeat constructor; simpl; intuition discriminate.
Qed.

Lemma toggle_keeps_invariant_witness :
  filters_wf
    (filters (dash (exec (setFilters
                            (FilterPanel.toggle scenarioSnapshot "ethereum"))
                         scenarioWorld))).
Proof.
  apply (toggle_keeps_invariant scenarioSnapshot "ethereum" scenarioWorld).
  exact scenarioFilters_wf.
Defined.

(** X16: selecting a coin and clicking it again gives back the filters
    one started from, when there is room for the coin, the selection is
    not empty and the primary coin is one of the selected.  (With an empty
    selection the second click is refused: the only coin must stay.) *)
Theorem toggle_twice_restores (availableCoins : list CoinMarket)
    (coinId : string) (prev : DashboardFilters) :
  ~ In coinId (selectedCoins prev) ->
  (length (selectedCoins prev) < FilterPanel.MAX_SELECTION)%nat ->
  In (primaryCoin prev) (selectedCoins prev) ->
  FilterPanel.toggle availableCoins coinId
    (FilterPanel.toggle availableCoins coinId prev) = prev
  /\ In coinId
        (selectedCoins (FilterPanel.toggle availableCoins coinId prev))
  /\ FilterPanel.toggle availableCoins coinId
       (FilterPanel.toggle availableCoins coinId DEFAULT_FILTERS)
     = FilterPanel.toggle availableCoins coinId DEFAULT_FILTERS.
Proof.
  intros Hn Hl Hp.
  assert (I : Array_includes (selectedCoins prev) coinId = false).
  { destruct (Array_includes (selectedCoins prev) coinId) eqn:E;
      [|reflexivity].
    apply Array_includes_In in E. contradiction. }
  assert (L : (FilterPanel.MAX_SELECTION <=? length (selectedCoins prev))%nat
              = false) by now apply Nat.leb_gt.
  assert (T : FilterPanel.toggle availableCoins coinId prev
              = {| vsCurrency := vsCurrency prev; timeRange := timeRange prev;
                   selectedCoins := selectedCoins prev ++ [coinId];
                   primaryCoin := primaryCoin prev |}).
  { unfold FilterPanel.toggle, FilterPanel.handleCoinToggle.
    now rewrite I, L. }
  split; [|split].
  - rewrite T. unfold FilterPanel.toggle, FilterPanel.handleCoinToggle.
    simpl.
    assert (I2 : Array_includes (selectedCoins prev ++ [coinId]) coinId
                 = true).
    { apply Array_includes_In, in_or_app. right. now left. }
    rewrite I2.
    assert (L2 : (length (selectedCoins prev ++ [coinId]) =? 1)%nat = false).
    { apply Nat.eqb_neq. rewrite length_app. simpl.
      destruct (selectedCoins prev); [destruct Hp|simpl; lia]. }
    rewrite L2. simpl.
    assert (R : filter (fun i => negb (i =? coinId)%string)
                       (selectedCoins prev ++ [coinId])
                = selectedCoins prev).
    { rewrite filter_app, (remaining_absent coinId _ Hn). simpl.
      rewrite String.eqb_refl. simpl. apply app_nil_r. }
    rewrite R. apply Array_includes_In in Hp. rewrite Hp.
    destruct prev; reflexivity.
  - rewrite T. simpl. apply in_or_app. right. now left.
  - unfold FilterPanel.toggle, FilterPanel.handleCoinToggle. simpl.
    rewrite String.eqb_refl. reflexivity.
Qed.

Lemma toggle_twice_restores_witness :
  FilterPanel.toggle scenarioSnapshot "cardano"
    (FilterPanel.toggle scenarioSnapshot "cardano" scenarioFilters)
  = scenarioFilters.
Proof.
  apply (toggle_twice_restores scenarioSnapshot "cardano" scenarioFilters).
  - simpl. intros [H|[H|[H|[]]]]; discriminate H.
  - unfold FilterPanel.MAX_SELECTION. simpl. lia.
  - simpl. tauto.
Defined.

(** X17: deselecting a coin.  With no id selected twice and at least two
    coins selected, a click on a selected coin removes exactly that coin
    and keeps the order of the others; the primary coin stays if it is
    another coin, and the first remaining coin takes over if the removed
    coin was the primary one or none was chosen.  The last selected coin
    cannot be removed. *)
Theorem toggle_removes_one (availableCoins : list CoinMarket)
    (coinId : string) (prev : DashboardFilters) :
  NoDup (selectedCoins prev) ->
  In coinId (selectedCoins prev) ->
  let next := FilterPanel.toggle availableCoins coinId prev in
  (length (selectedCoins prev) = 1%nat -> next = prev)
  /\ (length (selectedCoins prev) <> 1%nat ->
      selectedCoins next
      = filter (fun i => negb (i =? coinId)%string) (selectedCoins prev)
      /\ S (length (selectedCoins next)) = length (selectedCoins prev)
      /\ ~ In coinId (selectedCoins next)
      /\ (forall x, In x (selectedCoins prev) -> x <> coinId ->
                    In x (selectedCoins next))
      /\ In (primaryCoin next) (selectedCoins next)
      /\ (In (primaryCoin prev) (selectedCoins prev) ->
          primaryCoin prev <> coinId ->
          primaryCoin next = primaryCoin prev)
      /\ (primaryCoin prev = coinId \/ primaryCoin prev = "" ->
          ~ In "" (selectedCoins prev) ->
          primaryCoin next = hd "" (selectedCoins next))).
Proof.
  intros Hnd Hin next. subst next.
  unfold FilterPanel.toggle, FilterPanel.handleCoinToggle.
  pose proof Hin as I. apply Array_includes_In in I. rewrite I.
  split.
  - intros L. apply Nat.eqb_eq in L. now rewrite L.
  - intros L. apply Nat.eqb_neq in L. rewrite L. simpl.
    pose proof (remaining_length coinId (selectedCoins prev) Hnd Hin) as RL.
    set (remaining := filter (fun i => negb (i =? coinId)%string)
                             (selectedCoins prev)) in *.
    assert (Rne : remaining <> []).
    { intros E. rewrite E in RL. simpl in RL. apply Nat.eqb_neq in L.
      congruence. }
    split; [reflexivity|]. split; [exact RL|].
    split; [intros H; apply remaining_In in H; tauto|].
    split; [intros x Hx Hne; apply remaining_In; tauto|].
    split; [|split].
    + destruct (Array_includes remaining (primaryCoin prev)) eqn:E.
      * now apply Array_includes_In.
      * destruct remaining as [|x rest]; [contradiction|]. simpl. now left.
    + intros Hp Hne.
      assert (E : Array_includes remaining (primaryCoin prev) = true).
      { apply Array_includes_In, remaining_In. tauto. }
      now rewrite E.
    + intros Hp Hno.
      assert (E : Array_includes remaining (primaryCoin prev) = false).
      { destruct (Array_includes remaining (primaryCoin prev)) eqn:E;
          [|reflexivity].
        apply Array_includes_In, remaining_In in E.
        destruct Hp as [Hp|Hp]; [tauto|].
        rewrite Hp in E. tauto. }
      rewrite E. destruct remaining as [|x rest]; [contradiction|].
      reflexivity.
Qed.

Lemma toggle_removes_one_witness :
  S (length (selectedCoins
               (FilterPanel.toggle scenarioSnapshot "ethereum"
                  scenarioFilters)))
  = length (selectedCoins scenarioFilters).
Proof.
  refine (proj1 (proj2 (proj2 (toggle_removes_one scenarioSnapshot
                                 "ethereum" scenarioFilters
                                 (proj1 scenarioFilters_wf)
                                 (or_intror (or_introl eq_refl))) _))).
  simpl. discriminate.
Defined.

(** ** The polling loop, further *)

Lemma Math_min_le_l (a b : Q) : Js.Math_min a b <= a.
Proof.
  unfold Js.Math_min. destruct (Qle_bool a b) eqn:E.
  - apply Qle_refl.
  - apply Qlt_le_weak, Qnot_le_lt. intros H.
    apply Qle_bool_iff in H. congruence.
Qed.

Lemma Math_min_le_r (a b : Q) : Js.Math_min a b <= b.
Proof.
  unfold Js.Math_min. destruct (Qle_bool a b) eqn:E.
  - now apply Qle_bool_iff.
  - apply Qle_refl.
Qed.

Lemma Math_max_either (a b : Q) :
  Js.Math_max a b = a \/ Js.Math_max a b = b.
Proof. unfold Js.Math_max. destruct (Qle_bool a b); tauto. Qed.

Lemma pow2_ge_8 (k : nat) : (3 <= k)%nat -> (8 <= 2 ^ Z.of_nat k)%Z.
Proof.
  intros H. replace (Z.of_nat k) with (3 + Z.of_nat (k - 3))%Z by lia.
  rewrite Z.pow_add_r by lia.
  assert (0 < 2 ^ Z.of_nat (k - 3))%Z by (apply Z.pow_pos_nonneg; lia).
  change (2 ^ 3)%Z with 8%Z. lia.
Qed.

Lemma multiplier_range (failureCount : nat) :
  1 <= multiplier failureCount /\ multiplier failureCount <= 8.
Proof.
  assert (P : (1 <= 2 ^ Z.of_nat failureCount)%Z).
  { assert (0 < 2 ^ Z.of_nat failureCount)%Z
      by (apply Z.pow_pos_nonneg; lia). lia. }
  split; [|apply Math_min_le_r].
  unfold multiplier, Js.Math_min.
  destruct (Qle_bool (inject_Z (2 ^ Z.of_nat failureCount)) 8);
    [|discriminate].
  change 1 with (inject_Z 1). now rewrite <- Zle_Qle.
Qed.

(** X18: the backoff multiplier doubles with each counted failure, 1, 2,
    4, 8, and stays at 8 from the third failure on; it always lies between
    1 and 8. *)
Theorem multiplier_schedule (failureCount : nat) :
  1 <= multiplier failureCount
  /\ multiplier failureCount <= 8
  /\ multiplier 0 == 1 /\ multiplier 1 == 2 /\ multiplier 2 == 4
  /\ ((3 <= failureCount)%nat -> multiplier failureCount == 8)
  /\ ((failureCount <= 3)%nat ->
      multiplier failureCount == inject_Z (2 ^ Z.of_nat failureCount)).
Proof.
  assert (P : (1 <= 2 ^ Z.of_nat failureCount)%Z).
  { assert (0 < 2 ^ Z.of_nat failureCount)%Z
      by (apply Z.pow_pos_nonneg; lia). lia. }
  split; [|split; [|split; [|split; [|split; [|split]]]]];
    try reflexivity.
  - unfold multiplier, Js.Math_min.
    destruct (Qle_bool (inject_Z (2 ^ Z.of_nat failureCount)) 8);
      [|discriminate].
    change 1 with (inject_Z 1). now rewrite <- Zle_Qle.
  - apply Math_min_le_r.
  - intros H. unfold multiplier, Js.Math_min.
    destruct (Qle_bool (inject_Z (2 ^ Z.of_nat failureCount)) 8) eqn:E;
      [|reflexivity].
    apply Qle_bool_iff in E. change 8 with (inject_Z 8) in E.
    rewrite <- Zle_Qle in E. pose proof (pow2_ge_8 failureCount H).
    replace (2 ^ Z.of_nat failureCount)%Z with 8%Z by lia. reflexivity.
  - intros H. unfold multiplier, Js.Math_min.
    destruct (Qle_bool (inject_Z (2 ^ Z.of_nat failureCount)) 8) eqn:E;
      [reflexivity|].
    exfalso.
    assert (C : Qle_bool (inject_Z (2 ^ Z.of_nat failureCount)) 8 = true).
    { apply Qle_bool_iff. change 8 with (inject_Z 8). rewrite <- Zle_Qle.
      change 8%Z with (2 ^ 3)%Z. apply Z.pow_le_mono_r; lia. }
    congruence.
Qed.

(** X19: every delay handed to [setTimeout] is at least one second.  For
    a positive interval and a value of [Math.random()] between 0 and 1,
    the delay before jitter lies between one and eight intervals, and
    the delay set differs from it by at most a tenth plus half a
    millisecond of rounding, unless the floor of one second applies. *)
Theorem delay_bounds (interval : Q) (failureCount : nat) (page : Page) :
  0 <= interval ->
  0 <= random page ->
  random page <= 1 ->
  let next := unjittered interval failureCount (hidden page) in
  1000 <= delay interval failureCount page
  /\ interval <= next
  /\ next <= 8 * interval
  /\ (9 # 10) * next - (1 # 2) <= delay interval failureCount page
  /\ delay interval failureCount page
     <= Js.Math_max 1000 ((11 # 10) * next + (1 # 2)).
Proof.
  intros Hi H0 H1 next.
  destruct (multiplier_range failureCount) as [M1 M8].
  assert (B : interval <= interval * multiplier failureCount
              /\ interval * multiplier failureCount <= 8 * interval).
  { split; nra. }
  assert (N : interval <= next /\ next <= 8 * interval).
  { subst next. unfold unjittered. destruct (hidden page); [|exact B].
    destruct (Math_max_either (interval * multiplier failureCount)
                (interval * 6)) as [E|E]; rewrite E; split; lra. }
  split; [apply Math_max_ge_l|].
  split; [tauto|]. split; [tauto|].
  unfold delay. fold next.
  pose proof (Math_round_ge (next * (random page * (2 # 10) - (1 # 10)))) as Rl.
  pose proof (Math_round_le (next * (random page * (2 # 10) - (1 # 10)))) as Ru.
  fold (jitter next (random page)) in Rl, Ru.
  set (j := inject_Z (jitter next (random page))) in *.
  assert (P0 : 0 <= next * random page) by (apply Qmult_le_0_compat; lra).
  assert (P1 : next * random page <= next) by nra.
  split.
  - eapply Qle_trans; [|apply Math_max_ge_r]. lra.
  - destruct (Math_max_either 1000 (next + j)) as [E|E]; rewrite E.
    + apply Math_max_ge_l.
    + eapply Qle_trans; [|apply Math_max_ge_r]. lra.
Qed.

Lemma delay_bounds_witness :
  1000 <= delay 30000 2 {| hidden := false; random := 3 # 4 |}.
Proof.
  apply (delay_bounds 30000 2 {| hidden := false; random := 3 # 4 |});
    discriminate.
Defined.

Section PollingLoop.

Variable t : string -> list (string * Z) -> string.
Variable areArraysEqual : list string -> list string -> bool.
Variable Number : string -> Js.Number.

(** What [scheduleNext] does to the world and to the shared variables. *)
Lemma scheduleNext_result (interval : Q) (page : Page) (p : PollRefs)
    (w : World) :
  scheduleNext interval page p w
  = (Normal {| isFetchingRef := isFetchingRef p;
               failureCountRef := failureCountRef p;
               cancelled := cancelled p;
               timeoutId := Some (S (length (timers w))) |},
     {| dash := dash w; fetches := fetches w;
        timers := timers w ++ [delay interval (failureCountRef p) page];
        pending := pending w ++ [S (length (timers w))] |}).
Proof. reflexivity. Qed.

(** An attempt that completes: the loaders leave fetches and timers alone,
    then [attemptFetch] resumes on its success path. *)
Lemma attempt_completes_result (interval : Q) (page : Page)
    (fs : DashboardFilters) (now : Z)
    (marketsReply : Coingecko.Reply (list CoinMarket))
    (chartReply : Coingecko.Reply MarketChartResponse)
    (p : PollRefs) (w : World) :
  exists w2,
    same_outside w w2
    /\ attempt_completes t areArraysEqual Number interval page fs now
         marketsReply chartReply p w
       = attemptFetch_settle interval page (Normal tt) p w2.
Proof.
  unfold attempt_completes.
  destruct (loadMarketOverview_never_rejects t areArraysEqual fs
              fresh_signal now (Coingecko.request Number marketsReply) w)
    as [HM OM].
  unfold settles, exec in HM, OM.
  destruct (loadMarketOverview_settle t areArraysEqual fs fresh_signal now
              (Coingecko.request Number marketsReply) w) as [cM w1].
  simpl in HM, OM. subst cM.
  destruct (loadChart_never_rejects t fresh_signal now
              (Coingecko.request Number chartReply) w1) as [HC OC].
  unfold settles, exec in HC, OC.
  destruct (loadChart_settle t fresh_signal now
              (Coingecko.request Number chartReply) w1) as [cC w2].
  simpl in HC, OC. subst cC.
  exists w2. split; [|reflexivity].
  destruct OM as [A [B C]], OC as [A' [B' C']].
  repeat split; congruence.
Qed.

Lemma remove_only (timer : nat) : remove Nat.eq_dec timer [timer] = [].
Proof. simpl. destruct (Nat.eq_dec timer timer); [reflexivity|congruence]. Qed.

(** Every event keeps the invariant, and no event ends abruptly. *)
Lemma poll_step_inv (fs : DashboardFilters) (loop : option Loop)
    (ev : Event) (w : World) :
  poll_inv loop w ->
  exists loop' w',
    poll_step t areArraysEqual Number fs loop ev w = (Normal loop', w')
    /\ poll_inv loop' w'
    /\ (loop = None -> loop' = None /\ w' = w)
    /\ (forall l, loop = Some l -> cancelled (refs l) = true ->
        exists l', loop' = Some l' /\ cancelled (refs l') = true
                   /\ fetches w' = fetches w /\ timers w' = timers w).
Proof.
  intros I. destruct loop as [l|].
  2:{ exists None, w. repeat split; try reflexivity; try exact I.
      intros l H. discriminate H. }
  destruct I as [IC [IF [IS [IX IP]]]].
  destruct l as [b [isF fc cn tid] susp]. simpl in *. subst fc isF.
  destruct ev as [timer page|page now mR cR|].
  - (* a timer fires *)
    simpl.
    destruct (existsb (Nat.eqb timer) (pending w)) eqn:E.
    2:{ eexists _, w. split; [reflexivity|].
        split; [simpl; tauto|]. split; [discriminate|].
        intros l H C. injection H as <-. eexists. simpl in *.
        repeat split; try reflexivity. exact C. }
    destruct IP as [IP|[id [Hid IP]]]; [rewrite IP in E; discriminate E|].
    rewrite IP in E. simpl in E. rewrite orb_false_r in E.
    apply Nat.eqb_eq in E. subst timer.
    destruct susp; [specialize (IS eq_refl); congruence|].
    destruct cn; [specialize (IX eq_refl); congruence|].
    unfold bind, timer_fires, attemptFetch_call. simpl.
    rewrite IP, remove_only.
    destruct (hidden page) eqn:H.
    + cbv [scheduleNext bind setTimeout ret]; simpl.
      eexists _, _. split; [reflexivity|]. simpl.
      split.
      * repeat split; try discriminate. right. eexists. split; reflexivity.
      * split; [discriminate|]. intros l Hl C. injection Hl as <-.
        discriminate C.
    + unfold loadMarketOverview_call, loadChart_call, bind, setLoadingMarkets,
        setLoadingChart, modify_dash, do_fetch, ret. simpl.
      eexists _, _. split; [reflexivity|]. simpl.
      split.
      * repeat split; try discriminate. now left.
      * split; [discriminate|]. intros l Hl C. injection Hl as <-.
        discriminate C.
  - (* the fetches of the attempt settle *)
    simpl. destruct susp.
    2:{ eexists _, w. split; [reflexivity|].
        split; [simpl; tauto|]. split; [discriminate|].
        intros l H C. injection H as <-. eexists. simpl in *.
        repeat split; try reflexivity. exact C. }
    specialize (IS eq_refl).
    unfold bind.
    destruct (attempt_completes_result b page fs now mR cR
                {| isFetchingRef := true; failureCountRef := 0;
                   cancelled := cn; timeoutId := tid |} w)
      as [w2 [[OF [OT OP]] R]].
    rewrite R. unfold attemptFetch_settle. simpl.
    destruct cn; simpl.
    + unfold ret. eexists _, w2. split; [reflexivity|]. simpl.
      split.
      * repeat split; try discriminate; try (intros _; congruence).
        left. congruence.
      * split; [discriminate|]. intros l Hl C. injection Hl as <-.
        eexists. split; [reflexivity|]. simpl. repeat split; assumption.
    + cbv [scheduleNext bind setTimeout ret]; simpl.
      eexists _, _. split; [reflexivity|]. simpl.
      split.
      * repeat split; try discriminate. right. eexists.
        split; [reflexivity|]. now rewrite OP, IS.
      * split; [discriminate|]. intros l Hl C. injection Hl as <-.
        discriminate C.
  - (* the cleanup runs *)
    simpl. unfold bind, pollingCleanup. simpl.
    destruct tid as [id|].
    + unfold clearTimeout, ret. simpl.
      eexists _, _. split; [reflexivity|]. simpl.
      assert (P : remove Nat.eq_dec id (pending w) = []).
      { destruct IP as [IP|[id' [Hid IP]]]; [now rewrite IP|].
        injection Hid as <-. rewrite IP. apply remove_only. }
      rewrite P.
      split.
      * repeat split; try reflexivity. now left.
      * split; [discriminate|]. intros l Hl C. injection Hl as <-.
        eexists. split; [reflexivity|]. simpl. repeat split.
    + unfold ret. eexists _, w. split; [reflexivity|]. simpl.
      assert (P : pending w = []).
      { destruct IP as [IP|[id' [Hid _]]]; [exact IP|discriminate Hid]. }
      split.
      * repeat split; try reflexivity; try (intros _; exact P). now left.
      * split; [discriminate|]. intros l Hl C. injection Hl as <-.
        eexists. split; [reflexivity|]. simpl. repeat split.
Qed.

Lemma poll_run_inv (fs : DashboardFilters) (evs : list Event)
    (loop : option Loop) (w : World) :
  poll_inv loop w ->
  exists loop' w',
    poll_run t areArraysEqual Number fs loop evs w = (Normal loop', w')
    /\ poll_inv loop' w'
    /\ (forall l, loop = Some l -> cancelled (refs l) = true ->
        exists l', loop' = Some l' /\ cancelled (refs l') = true
                   /\ fetches w' = fetches w /\ timers w' = timers w).
Proof.
  revert loop w. induction evs as [|ev evs IH]; intros loop w I.
  - exists loop, w. repeat split; trivial.
    intros l Hl C. exists l. repeat split; assumption.
  - destruct (poll_step_inv fs loop ev w I) as [l1 [w1 [S1 [I1 [_ C1]]]]].
    destruct (IH l1 w1 I1) as [l2 [w2 [S2 [I2 C2]]]].
    exists l2, w2. simpl. unfold bind. rewrite S1.
    split; [exact S2|]. split; [exact I2|].
    intros l Hl C.
    destruct (C1 l Hl C) as [l' [Hl' [C' [F T]]]].
    destruct (C2 l' Hl' C') as [l'' [Hl'' [C'' [F' T']]]].
    exists l''. repeat split; congruence.
Qed.

(** The cleanup itself: it marks the loop cancelled and clears its timer;
    it starts nothing. *)
Lemma cleanup_step (fs : DashboardFilters) (l : Loop) (w : World) :
  exists l1 w1,
    poll_step t areArraysEqual Number fs (Some l) CleanupRuns w
    = (Normal (Some l1), w1)
    /\ cancelled (refs l1) = true
    /\ fetches w1 = fetches w /\ timers w1 = timers w.
Proof.
  simpl. unfold bind, pollingCleanup.
  destruct (timeoutId (refs l)); simpl; eexists _, _;
    (split; [reflexivity|]); simpl; repeat split.
Qed.

End PollingLoop.

(** X20: when its timer fires while the page is hidden (or while a fetch is
    still marked in flight), [attemptFetch] only sets the next timer: no
    request is issued, the dashboard state is untouched, and the failure
    counter and the in-flight flag keep their values. *)
Theorem hidden_page_only_reschedules (interval : Q) (page : Page)
    (fs : DashboardFilters) (p : PollRefs) (w : World) :
  cancelled p = false ->
  isFetchingRef p = true \/ hidden page = true ->
  let r := attemptFetch_call interval page fs p w in
  fst r = Normal ({| isFetchingRef := isFetchingRef p;
                     failureCountRef := failureCountRef p;
                     cancelled := false;
                     timeoutId := Some (S (length (timers w))) |}, false)
  /\ fetches (snd r) = fetches w
  /\ dash (snd r) = dash w
  /\ timers (snd r) = timers w ++ [delay interval (failureCountRef p) page]
  /\ pending (snd r) = pending w ++ [S (length (timers w))].
Proof.
  intros C H r. subst r. unfold attemptFetch_call. rewrite C.
  destruct (isFetchingRef p) eqn:F.
  - cbv [bind scheduleNext setTimeout ret]. simpl. rewrite C, ?F.
    repeat split.
  - destruct H as [H|H]; [discriminate H|]. rewrite H.
    cbv [bind scheduleNext setTimeout ret]. simpl. rewrite C, ?F.
    repeat split.
Qed.

Lemma hidden_page_only_reschedules_witness :
  fetches
    (snd (attemptFetch_call 30000 {| hidden := true; random := 1 # 2 |}
            DEFAULT_FILTERS
            {| isFetchingRef := false; failureCountRef := 0;
               cancelled := false; timeoutId := None |} initialWorld))
  = fetches initialWorld.
Proof.
  apply (hidden_page_only_reschedules 30000
           {| hidden := true; random := 1 # 2 |} DEFAULT_FILTERS
           {| isFetchingRef := false; failureCountRef := 0;
              cancelled := false; timeoutId := None |} initialWorld).
  - reflexivity.
  - right. reflexivity.
Defined.

(** X21: what holds of the polling loop at every moment, whatever the
    configured interval and whatever timers fire, fetches settle (with
    success or failure) or cleanups run after the effect is mounted on a
    page without pending timers: no event ends in an exception, at most
    one timer is pending, none is pending while an attempt is in flight,
    and the failure counter is 0, so that every delay is computed with
    the multiplier 1. *)
Theorem polling_loop_invariant
    (t : string -> list (string * Z) -> string)
    (areArraysEqual : list string -> list string -> bool)
    (Number : string -> Js.Number)
    (VITE_AUTO_REFRESH_MS : option string) (page : Page)
    (fs : DashboardFilters) (evs : list Event) (w : World) :
  pending w = [] ->
  let run := polling t areArraysEqual Number VITE_AUTO_REFRESH_MS page fs evs
  in
  exists loop,
    settles run w = Normal loop
    /\ poll_inv loop (exec run w)
    /\ (length (pending (exec run w)) <= 1)%nat
    /\ (phase loop (exec run w) = InFlight -> pending (exec run w) = [])
    /\ (forall l, loop = Some l ->
        failureCountRef (refs l) = O
        /\ multiplier (failureCountRef (refs l)) == 1).
Proof.
  intros P run. subst run. unfold polling, settles, exec, bind.
  set (interval := AUTO_REFRESH_MS Number VITE_AUTO_REFRESH_MS).
  assert (M : exists r w1,
             pollingEffect interval page fs w = (Normal r, w1)
             /\ poll_inv (match r, interval with
                          | Some (p, awaiting), Js.Fin b =>
                              Some {| base := b; refs := p;
                                      suspended := awaiting |}
                          | _, _ => None
                          end) w1).
  { unfold pollingEffect.
    destruct (negb (Js.truthy interval) || Js.le0 interval).
    - exists None, w. split; [reflexivity|exact P].
    - destruct interval as [|b].
      + exists None, w. split; [reflexivity|exact P].
      + unfold bind, attemptFetch_call. simpl.
        destruct (hidden page).
        * cbv [bind scheduleNext setTimeout ret]. simpl.
          eexists _, _. split; [reflexivity|]. simpl. rewrite P.
          repeat split; try discriminate. right. eexists.
          split; reflexivity.
        * cbv [loadMarketOverview_call loadChart_call bind setLoadingMarkets
                 setLoadingChart modify_dash do_fetch ret]. simpl.
          eexists _, _. split; [reflexivity|]. simpl.
          repeat split; try discriminate; try (intros _; exact P).
          now left. }
  destruct M as [r [w1 [E I1]]]. rewrite E.
  destruct (poll_run_inv t areArraysEqual Number fs evs _ w1 I1)
    as [loop [w2 [R [I2 _]]]].
  rewrite R. simpl. exists loop. split; [reflexivity|].
  split; [exact I2|].
  destruct loop as [l|]; simpl in *.
  - destruct I2 as [IC [IF [IS [IX IP]]]].
    split; [|split].
    + destruct IP as [IP|[id [_ IP]]]; rewrite IP; simpl; lia.
    + destruct (suspended l); [intros _; now apply IS|].
      destruct (timeoutId (refs l)) as [id|]; [|discriminate].
      destruct (existsb (Nat.eqb id) (pending w2)); discriminate.
    + intros l' H. injection H as <-. rewrite IC. split; reflexivity.
  - split; [|split].
    + rewrite I2. simpl. lia.
    + discriminate.
    + intros l H. discriminate H.
Qed.

Lemma polling_loop_invariant_witness :
  (length
     (pending
        (exec (polling t_of_key sameArrays Number_of_digits (Some "30000")
                 {| hidden := true; random := 1 # 2 |} DEFAULT_FILTERS
                 [TimerFires 1 {| hidden := false; random := 1 # 2 |};
                  FetchesSettle {| hidden := false; random := 1 # 4 |}
                    1700000000
                    (Coingecko.FetchResponded (throttled_response None))
                    (Coingecko.FetchRejected abortError)])
              initialWorld)) <= 1)%nat.
Proof.
  destruct (polling_loop_invariant t_of_key sameArrays Number_of_digits
              (Some "30000") {| hidden := true; random := 1 # 2 |}
              DEFAULT_FILTERS
              [TimerFires 1 {| hidden := false; random := 1 # 2 |};
               FetchesSettle {| hidden := false; random := 1 # 4 |}
                 1700000000
                 (Coingecko.FetchResponded (throttled_response None))
                 (Coingecko.FetchRejected abortError)]
              initialWorld eq_refl) as [loop [_ [_ [H _]]]].
  exact H.
Defined.

(** X22: the cleanup stops the loop for good.  From any state of the loop,
    once the cleanup has run no timer is set and no request is issued any
    more, whatever happens afterwards (a late timer, the fetches of an
    attempt in flight settling, a second cleanup), and no timer is left
    pending. *)
Theorem cleanup_stops_the_loop
    (t : string -> list (string * Z) -> string)
    (areArraysEqual : list string -> list string -> bool)
    (Number : string -> Js.Number)
    (fs : DashboardFilters) (l : Loop) (evs : list Event) (w : World) :
  poll_inv (Some l) w ->
  let w' := exec (poll_run t areArraysEqual Number fs (Some l)
                    (CleanupRuns :: evs)) w in
  timers w' = timers w
  /\ fetches w' = fetches w
  /\ pending w' = []
  /\ exists l', settles (poll_run t areArraysEqual Number fs (Some l)
                           (CleanupRuns :: evs)) w = Normal (Some l')
                /\ cancelled (refs l') = true.
Proof.
  intros I w'. subst w'. unfold exec, settles.
  change (poll_run t areArraysEqual Number fs (Some l) (CleanupRuns :: evs) w)
    with (bind (poll_step t areArraysEqual Number fs (Some l) CleanupRuns)
               (fun loop' => poll_run t areArraysEqual Number fs loop' evs)
               w).
  unfold bind.
  destruct (cleanup_step t areArraysEqual Number fs l w)
    as [l1 [w1 [S1 [C1 [F1 T1]]]]].
  destruct (poll_step_inv t areArraysEqual Number fs (Some l) CleanupRuns w I)
    as [l1' [w1' [S1' [I1 _]]]].
  rewrite S1 in S1'. injection S1' as <- <-.
  rewrite S1.
  destruct (poll_run_inv t areArraysEqual Number fs evs (Some l1) w1 I1)
    as [l2 [w2 [S2 [I2 C2]]]].
  destruct (C2 l1 eq_refl C1) as [l2' [-> [C2' [F2 T2]]]].
  rewrite S2. simpl.
  split; [congruence|]. split; [congruence|].
  split.
  - destruct I2 as [_ [_ [_ [X _]]]]. now apply X.
  - exists l2'. split; [reflexivity|exact C2'].
Qed.

Lemma cleanup_stops_the_loop_witness :
  fetches
    (exec (poll_run t_of_key sameArrays Number_of_digits DEFAULT_FILTERS
             (Some {| base := 30000;
                      refs := {| isFetchingRef := true; failureCountRef := 0;
                                 cancelled := false; timeoutId := None |};
                      suspended := true |})
             [CleanupRuns;
              FetchesSettle {| hidden := false; random := 1 # 2 |}
                1700000000
                (Coingecko.FetchResponded (ok_response scenarioSnapshot))
                (Coingecko.FetchRejected abortError);
              TimerFires 1 {| hidden := false; random := 1 # 2 |}])
          initialWorld)
  = fetches initialWorld.
Proof.
  apply (cleanup_stops_the_loop t_of_key sameArrays Number_of_digits
           DEFAULT_FILTERS
           {| base := 30000;
              refs := {| isFetchingRef := true; failureCountRef := 0;
                         cancelled := false; timeoutId := None |};
              suspended := true |}
           [CleanupRuns;
            FetchesSettle {| hidden := false; random := 1 # 2 |} 1700000000
              (Coingecko.FetchResponded (ok_response scenarioSnapshot))
              (Coingecko.FetchRejected abortError);
            TimerFires 1 {| hidden := false; random := 1 # 2 |}]
           initialWorld).
  simpl. repeat split; try reflexivity. now left.
Defined.

Section LateSettle.

Variable t : string -> list (string * Z) -> string.
Variable areArraysEqual : list string -> list string -> bool.
Variable Number : string -> Js.Number.

(** The continuation of [loadChart] never touches what the snapshot cycle
    owns. *)
Lemma loadChart_settle_keeps_snapshot (signal : option AbortSignal)
    (now : Z) (awaited : Js.Thrown + MarketChartResponse) (w : World) :
  let d' := dash (exec (loadChart_settle t signal now awaited) w) in
  availableCoins d' = availableCoins (dash w)
  /\ selectedCoinMarkets d' = selectedCoinMarkets (dash w)
  /\ filters d' = filters (dash w)
  /\ loadingMarkets d' = loadingMarkets (dash w).
Proof.
  destruct (signal_aborted signal) eqn:S.
  - unfold exec. rewrite loadChart_settle_aborted by exact S.
    repeat split.
  - unfold exec, loadChart_settle, try_catch_finally, try_finally,
      try_catch, bind, await, ret, throw.
    rewrite S. destruct awaited as [err|data]; simpl; [|repeat split].
    destruct (report_failure_is_setError t
                "Unexpected error while loading chart data." err)
      as [msg ->].
    repeat split.
Qed.

End LateSettle.

(** X23: the cleanup of the polling effect does not cancel the attempt in
    flight.  When the fetches of that attempt settle after the cleanup,
    the loaders still write: a snapshot that arrives replaces the list of
    available coins and resets [loadingMarkets]; only the next timer is
    not set. *)
Theorem late_attempt_still_writes
    (t : string -> list (string * Z) -> string)
    (areArraysEqual : list string -> list string -> bool)
    (Number : string -> Js.Number)
    (fs : DashboardFilters) (l : Loop) (page : Page) (now : Z)
    (r : Coingecko.Response (list CoinMarket)) (data : list CoinMarket)
    (chartReply : Coingecko.Reply MarketChartResponse) (w : World) :
  suspended l = true ->
  Coingecko.ok r = true ->
  Coingecko.json r = inr data ->
  let w' := exec (poll_run t areArraysEqual Number fs (Some l)
                    [CleanupRuns;
                     FetchesSettle page now (Coingecko.FetchResponded r)
                       chartReply]) w in
  availableCoins (dash w') = data
  /\ selectedCoinMarkets (dash w') = projection (filtered fs data) data
  /\ loadingMarkets (dash w') = false
  /\ timers w' = timers w.
Proof.
  intros Hs Hok Hjson w'. subst w'.
  unfold exec. simpl. unfold bind, pollingCleanup.
  assert (K : forall w0 p,
             cancelled p = true ->
             let w2 := snd (attempt_completes t areArraysEqual Number
                              (base l) page fs now
                              (Coingecko.FetchResponded r) chartReply p w0) in
             availableCoins (dash w2) = data
             /\ selectedCoinMarkets (dash w2)
                = projection (filtered fs data) data
             /\ loadingMarkets (dash w2) = false
             /\ timers w2 = timers w0).
  { intros w0 p C. unfold attempt_completes.
    rewrite (request_ok Number r Hok), Hjson.
    destruct (loadMarketOverview_settle t areArraysEqual fs fresh_signal now
                (inr data) w0) as [cM w1] eqn:EM.
    assert (M : availableCoins (dash w1) = data
                /\ selectedCoinMarkets (dash w1)
                   = projection (filtered fs data) data
                /\ loadingMarkets (dash w1) = false
                /\ timers w1 = timers w0).
    { change w1 with (snd (cM, w1)). rewrite <- EM.
      unfold loadMarketOverview_settle, try_catch_finally, try_finally,
        try_catch, bind, await, ret. simpl.
      destruct (negb (areArraysEqual (filtered fs data) (selectedCoins fs))
                || negb (nextPrimary fs data =? primaryCoin fs)%string);
        repeat split. }
    destruct (loadChart_settle_keeps_snapshot t fresh_signal now
                (Coingecko.request Number chartReply) w1) as [A [B [_ D]]].
    destruct (loadChart_never_rejects t fresh_signal now
                (Coingecko.request Number chartReply) w1) as [_ [_ [TC _]]].
    unfold exec in A, B, D, TC.
    destruct (loadChart_settle t fresh_signal now
                (Coingecko.request Number chartReply) w1) as [cC w2].
    simpl in A, B, D, TC.
    unfold attemptFetch_settle. simpl. rewrite C. simpl.
    destruct M as [M1 [M2 [M3 M4]]].
    repeat split; congruence. }
  destruct (timeoutId (refs l)) as [id|]; simpl; rewrite Hs; simpl.
  - unfold bind.
    match goal with
    | |- context [attempt_completes _ _ _ _ _ _ _ _ _ ?p ?w0] =>
        destruct (K w0 p eq_refl) as [K1 [K2 [K3 K4]]];
        destruct (attempt_completes t areArraysEqual Number (base l) page fs
                    now (Coingecko.FetchResponded r) chartReply p w0)
          as [[c|e] w2]
    end; simpl in *; repeat split; assumption.
  - unfold bind.
    match goal with
    | |- context [attempt_completes _ _ _ _ _ _ _ _ _ ?p ?w0] =>
        destruct (K w0 p eq_refl) as [K1 [K2 [K3 K4]]];
        destruct (attempt_completes t areArraysEqual Number (base l) page fs
                    now (Coingecko.FetchResponded r) chartReply p w0)
          as [[c|e] w2]
    end; simpl in *; repeat split; assumption.
Qed.

Lemma late_attempt_still_writes_witness :
  availableCoins
    (dash (exec (poll_run t_of_key sameArrays Number_of_digits scenarioFilters
                   (Some {| base := 30000;
                            refs := {| isFetchingRef := true;
                                       failureCountRef := 0;
                                       cancelled := false;
                                       timeoutId := None |};
                            suspended := true |})
                   [CleanupRuns;
                    FetchesSettle {| hidden := false; random := 1 # 2 |}
                      1700000000
                      (Coingecko.FetchResponded (ok_response scenarioSnapshot))
                      (Coingecko.FetchRejected abortError)])
                scenarioWorld))
  = scenarioSnapshot.
Proof.
  apply (late_attempt_still_writes t_of_key sameArrays Number_of_digits
           scenarioFilters
           {| base := 30000;
              refs := {| isFetchingRef := true; failureCountRef := 0;
                         cancelled := false; timeoutId := None |};
              suspended := true |}
           {| hidden := false; random := 1 # 2 |} 1700000000
           (ok_response scenarioSnapshot) scenarioSnapshot
           (Coingecko.FetchRejected abortError) scenarioWorld);
    reflexivity.
Defined.

Lemma Math_round_small (q : Q) :
  0 < q -> q < 1 # 2 -> Js.Math_round q = 0%Z.
Proof.
  intros H0 H1. unfold Js.Math_round.
  pose proof (Qfloor_le (q + (1 # 2))) as U.
  pose proof (Qlt_floor (q + (1 # 2))) as L.
  rewrite inject_Z_plus in L. change (inject_Z 1) with 1 in L.
  assert (A : inject_Z (Qfloor (q + (1 # 2))) < inject_Z 1).
  { change (inject_Z 1) with 1.
    set (n := inject_Z (Qfloor (q + (1 # 2)))) in *. lra. }
  assert (B : inject_Z (-1) < inject_Z (Qfloor (q + (1 # 2)))).
  { change (inject_Z (-1)) with (-1 # 1).
    set (n := inject_Z (Qfloor (q + (1 # 2)))) in *. lra. }
  rewrite <- Zlt_Qlt in A, B. lia.
Qed.

Lemma Math_round_big (q : Q) : 1 # 2 <= q -> (1 <= Js.Math_round q)%Z.
Proof.
  intros H. unfold Js.Math_round.
  assert (H1 : 1 <= q + (1 # 2)) by lra.
  apply Qfloor_resp_le in H1. exact H1.
Qed.

(** X24: what the rate-limit branch of the [catch] blocks shows for an
    instance of the exported [RateLimitError]: the seconds, rounded to the
    nearest integer, when [retryAfter] is a number of at least one half;
    the text without a number when [retryAfter] is missing, NaN, zero,
    negative or rounds to 0. *)
Theorem rate_limit_branch_message
    (t : string -> list (string * Z) -> string) (fallback : string)
    (e : Js.Error) :
  Js.ctor e = Js.ExportedRateLimitError ->
  report_failure t fallback (Js.ThrownError e)
  = setError
      (Some match Js.retryAfter e with
            | Some (Js.Fin q) =>
                if Qle_bool (1 # 2) q
                then t "rateLimitMessage" [("n", Js.Math_round q)]
                else t "rateLimitRetryLater" []
            | Some Js.NaN => t "rateLimitRetryLater" []
            | None => t "rateLimitRetryLater" []
            end)
  /\ (forall q, Js.retryAfter e = Some (Js.Fin q) -> 1 # 2 <= q ->
                (1 <= Js.Math_round q)%Z).
Proof.
  intros C. split; [|intros q _ H; now apply Math_round_big].
  unfold report_failure, Js.instanceof. rewrite C. simpl.
  destruct (Js.retryAfter e) as [[|q]|]; try reflexivity.
  destruct (Qle_bool (1 # 2) q) eqn:B.
  - apply Qle_bool_iff in B.
    assert (G : Qle_bool q 0 = false).
    { destruct (Qle_bool q 0) eqn:G; [|reflexivity].
      apply Qle_bool_iff in G. lra. }
    rewrite G. simpl.
    pose proof (Math_round_big q B) as R.
    destruct (Js.Math_round q =? 0)%Z eqn:Z0; [|reflexivity].
    apply Z.eqb_eq in Z0. lia.
  - assert (B' : q < 1 # 2).
    { apply Qnot_le_lt. intros H. apply Qle_bool_iff in H. congruence. }
    destruct (Qle_bool q 0) eqn:G; simpl; [reflexivity|].
    assert (G' : 0 < q).
    { apply Qnot_le_lt. intros H. apply Qle_bool_iff in H. congruence. }
    now rewrite (Math_round_small q G' B').
Qed.

Lemma rate_limit_branch_message_witness :
  report_failure t_of_key "fallback"
    (Js.ThrownError
       (Coingecko.RateLimitError "Rate limit exceeded"
          (Some (Js.Fin (1 # 4)))))
  = setError (Some "rateLimitRetryLater").
Proof.
  apply (rate_limit_branch_message t_of_key "fallback"
           (Coingecko.RateLimitError "Rate limit exceeded"
              (Some (Js.Fin (1 # 4))))).
  reflexivity.
Defined.

(** X25: polling starts as soon as the effect is mounted with an interval
    that reads as a number above 0, without a first delay: on a visible
    page the two requests of the first attempt are issued at once and no
    timer is set; on a hidden page nothing is requested and the first
    timer is set with the multiplier 1. *)
Theorem polling_enabled_starts_at_once
    (t : string -> list (string * Z) -> string)
    (areArraysEqual : list string -> list string -> bool)
    (Number : string -> Js.Number) (s : string) (q : Q) (page : Page)
    (fs : DashboardFilters) (w : World) :
  Number s = Js.Fin q ->
  0 < q ->
  let run := polling t areArraysEqual Number (Some s) page fs [] in
  exists l,
    settles run w = Normal (Some l)
    /\ base l = q
    /\ failureCountRef (refs l) = O
    /\ suspended l = negb (hidden page)
    /\ dash (exec run w)
       = (if hidden page then dash w
          else dash (exec (setLoadingMarkets true ;; setLoadingChart true)%js
                       w))
    /\ fetches (exec run w)
       = fetches w
         ++ (if hidden page then []
             else [(Coingecko.getTopMarkets (vsCurrency fs) 50, fresh_signal);
                   (Coingecko.getMarketChart (primaryCoin fs) (vsCurrency fs)
                      (timeRange fs), fresh_signal)])
    /\ timers (exec run w)
       = timers w ++ (if hidden page then [delay q 0 page] else []).
Proof.
  intros HN Hq run. subst run.
  assert (T : Js.truthy (Js.Fin q) = true).
  { simpl. apply negb_true_iff.
    destruct (Qeq_bool q 0) eqn:E; [|reflexivity].
    apply Qeq_bool_iff in E. rewrite E in Hq. discriminate Hq. }
  assert (L : Js.le0 (Js.Fin q) = false).
  { simpl. destruct (Qle_bool q 0) eqn:E; [|reflexivity].
    apply Qle_bool_iff in E. lra. }
  assert (A : AUTO_REFRESH_MS Number (Some s) = Js.Fin q).
  { unfold AUTO_REFRESH_MS, Js.or. now rewrite HN, T. }
  unfold polling, settles, exec, bind. rewrite A.
  unfold pollingEffect. rewrite T, L. simpl.
  unfold bind, attemptFetch_call. simpl.
  destruct (hidden page).
  - cbv [bind scheduleNext setTimeout ret]. simpl.
    eexists. split; [reflexivity|]. simpl.
    repeat split. now rewrite app_nil_r.
  - cbv [loadMarketOverview_call loadChart_call bind setLoadingMarkets
           setLoadingChart modify_dash do_fetch ret]. simpl.
    eexists. split; [reflexivity|]. simpl.
    repeat split.
    + now rewrite <- app_assoc.
    + now rewrite app_nil_r.
Qed.

Lemma polling_enabled_starts_at_once_witness :
  exists l,
    settles (polling t_of_key sameArrays Number_of_digits (Some "30000")
               {| hidden := false; random := 1 # 2 |} DEFAULT_FILTERS [])
            initialWorld = Normal (Some l)
    /\ base l = 30000.
Proof.
  destruct (polling_enabled_starts_at_once t_of_key sameArrays
              Number_of_digits "30000" 30000
              {| hidden := false; random := 1 # 2 |} DEFAULT_FILTERS
              initialWorld eq_refl eq_refl) as [l [H1 [H2 _]]].
  exists l. split; assumption.
Defined.
